(** * Fatural: the bill-processing pipeline and its duplicate detector

    A shallow embedding of [app/worker.py] (class [BillProcessor]),
    [app/scanner.py] (class [BillScanner]), the parts of [app/schemas.py]
    and [app/models.py] they read and write, the push endpoint of
    [app/worker_service.py], and the upload and listing endpoints of
    [app/main.py].

    Python floats and PostgreSQL [float8] values are IEEE 754 binary64
    numbers: they are modelled by Rocq's primitive floats, so that NaN and
    rounding behave as they do in the running program. The components of
    a stored fingerprint are single-precision values, held in the same
    type. *)

From Stdlib Require Import ZArith NArith List Bool String Ascii.
From Stdlib Require Import Floats.
From stdpp Require Import gmap strings list fin_maps.

Local Open Scope string_scope.

Set Warnings "-register-all".

(** ** Floats *)

Module F.

Definition one : float := 1%float.
Definition zero : float := 0%float.

(** [self.duplicate_threshold = 0.95]: the binary64 number nearest to
    0.95, written exactly. *)
Definition threshold : float := 0x1.e666666666666p-1%float.

(** Python's [x >= y] on floats. *)
Definition ge (x y : float) : bool := PrimFloat.leb y x.

(** The order PostgreSQL sorts [float8] values by ([ORDER BY] ascending):
    NaN is greater than every other value and equal to itself. *)
Definition pg_lt (x y : float) : bool :=
  if PrimFloat.is_nan x then false
  else if PrimFloat.is_nan y then true
  else PrimFloat.ltb x y.

End F.

(** ** Values shared by the schemas and the models *)

(** A [uuid.UUID], as the 128-bit integer it compares by. *)
Definition uuid : Type := N.

(** A [datetime], as a count of microseconds. *)
Definition datetime : Type := Z.

(** A pgvector value or a Python [list[float]]. *)
Definition vector : Type := list float.

Definition bytes : Type := list Byte.byte.

(** A raised exception: its class and [str(e)]. *)
Record exn : Type := Exn { exn_class : string; exn_str : string }.

(** What a call that may raise gives back. *)
Inductive result (A : Type) : Type :=
| Ok (a : A)
| Raise (e : exn).
Arguments Ok {A} a.
Arguments Raise {A} e.

(** Python truthiness of an [Optional[str]]: [None] and [""] are falsy. *)
Definition truthy (o : option string) : bool :=
  match o with
  | Some s => negb (String.eqb s "")
  | None => false
  end.

(** [o or d] for an [Optional[str]] [o]. *)
Definition or_else (o : option string) (d : string) : string :=
  match o with
  | Some s => if String.eqb s "" then d else s
  | None => d
  end.

(** ** [app/schemas.py] *)

Module ExtractedLineItem.
Record t : Type := mk {
    description : string;
    quantity : float;
    unit_price : float;
    total_price : float;
    vat_rate : option float;
    atk_code : string
  }.
End ExtractedLineItem.

Module ExtractedBillData.
Record t : Type := mk {
    vendor_name : string;
    vendor_tax_number : option string;
    vendor_address : option string;
    bill_number : option string;
    bill_date : option string;
    bill_time : option string;
    subtotal : option float;
    vat_8_percent : option float;
    vat_18_percent : option float;
    total_vat : option float;
    total_amount : float;
    currency : string;
    line_items : list ExtractedLineItem.t;
    payment_method : option string;
    confidence_score : float
  }.
End ExtractedBillData.

Module BillUploadMessage.
Record t : Type := mk {
    bill_id : string;
    company_id : string;
    storage_path : string;
    mime_type : string;
    uploaded_at : string
  }.
End BillUploadMessage.

(** ** [app/models.py]: the columns of [bills]

    The [bills] table is a [gmap N Bill.t]: one row per primary key [id].
    [created_at] and [updated_at] are filled by the ORM's column defaults
    and are neither read nor assigned by the worker; they are left out.
    [status] is a free string column. [is_duplicate] is inserted with its
    column default [False], so it is a boolean in every row. *)

Module Bill.
Record t : Type := mk {
    company_id : uuid;
    original_filename : string;
    storage_path : string;
    file_size_bytes : option Z;
    mime_type : option string;
    vendor_name : option string;
    vendor_tax_number : option string;
    bill_number : option string;
    bill_date : option datetime;
    total_amount : option float;
    currency : option string;
    line_items : option (list ExtractedLineItem.t);
    raw_extraction : option ExtractedBillData.t;
    visual_fingerprint : option vector;
    status : string;
    error_message : option string;
    is_duplicate : bool;
    duplicate_of_id : option uuid;
    similarity_score : option float;
    processed_at : option datetime
  }.

  (** Attribute assignments [bill.x = v]. *)
Definition set_vendor_name v (b : t) : t :=
    let '(mk c fn sp fs mt _ vt bn bd ta cu li re vf st em du di si pa) := b in
    mk c fn sp fs mt v vt bn bd ta cu li re vf st em du di si pa.
Definition set_vendor_tax_number v (b : t) : t :=
    let '(mk c fn sp fs mt vn _ bn bd ta cu li re vf st em du di si pa) := b in
    mk c fn sp fs mt vn v bn bd ta cu li re vf st em du di si pa.
Definition set_bill_number v (b : t) : t :=
    let '(mk c fn sp fs mt vn vt _ bd ta cu li re vf st em du di si pa) := b in
    mk c fn sp fs mt vn vt v bd ta cu li re vf st em du di si pa.
Definition set_bill_date v (b : t) : t :=
    let '(mk c fn sp fs mt vn vt bn _ ta cu li re vf st em du di si pa) := b in
    mk c fn sp fs mt vn vt bn v ta cu li re vf st em du di si pa.
Definition set_total_amount v (b : t) : t :=
    let '(mk c fn sp fs mt vn vt bn bd _ cu li re vf st em du di si pa) := b in
    mk c fn sp fs mt vn vt bn bd v cu li re vf st em du di si pa.
Definition set_currency v (b : t) : t :=
    let '(mk c fn sp fs mt vn vt bn bd ta _ li re vf st em du di si pa) := b in
    mk c fn sp fs mt vn vt bn bd ta v li re vf st em du di si pa.
Definition set_line_items v (b : t) : t :=
    let '(mk c fn sp fs mt vn vt bn bd ta cu _ re vf st em du di si pa) := b in
    mk c fn sp fs mt vn vt bn bd ta cu v re vf st em du di si pa.
Definition set_raw_extraction v (b : t) : t :=
    let '(mk c fn sp fs mt vn vt bn bd ta cu li _ vf st em du di si pa) := b in
    mk c fn sp fs mt vn vt bn bd ta cu li v vf st em du di si pa.
Definition set_visual_fingerprint v (b : t) : t :=
    let '(mk c fn sp fs mt vn vt bn bd ta cu li re _ st em du di si pa) := b in
    mk c fn sp fs mt vn vt bn bd ta cu li re v st em du di si pa.
Definition set_status v (b : t) : t :=
    let '(mk c fn sp fs mt vn vt bn bd ta cu li re vf _ em du di si pa) := b in
    mk c fn sp fs mt vn vt bn bd ta cu li re vf v em du di si pa.
Definition set_error_message v (b : t) : t :=
    let '(mk c fn sp fs mt vn vt bn bd ta cu li re vf st _ du di si pa) := b in
    mk c fn sp fs mt vn vt bn bd ta cu li re vf st v du di si pa.
Definition set_is_duplicate v (b : t) : t :=
    let '(mk c fn sp fs mt vn vt bn bd ta cu li re vf st em _ di si pa) := b in
    mk c fn sp fs mt vn vt bn bd ta cu li re vf st em v di si pa.
Definition set_duplicate_of_id v (b : t) : t :=
    let '(mk c fn sp fs mt vn vt bn bd ta cu li re vf st em du _ si pa) := b in
    mk c fn sp fs mt vn vt bn bd ta cu li re vf st em du v si pa.
Definition set_similarity_score v (b : t) : t :=
    let '(mk c fn sp fs mt vn vt bn bd ta cu li re vf st em du di _ pa) := b in
    mk c fn sp fs mt vn vt bn bd ta cu li re vf st em du di v pa.
Definition set_processed_at v (b : t) : t :=
    let '(mk c fn sp fs mt vn vt bn bd ta cu li re vf st em du di si _) := b in
    mk c fn sp fs mt vn vt bn bd ta cu li re vf st em du di si v.
End Bill.


(** ** JSON values and the queue message

    [json.loads] gives a Python value; an object is a [dict], whose keys
    are distinct. *)

Inductive json : Type :=
| JNull
| JBool (b : bool)
| JInt (n : Z)
| JFloat (x : float)
| JString (s : string)
| JArray (l : list json)
| JObject (items : list (string * json)).

(** [data[k]] for a dict [data]. *)
Fixpoint dict_get (items : list (string * json)) (k : string) : option json :=
  match items with
  | [] => None
  | (k', v) :: rest => if String.eqb k' k then Some v else dict_get rest k
  end.

(** A required [str] field of a pydantic model: a missing key or a value
    that is not a string is a validation error. *)
Definition str_field (items : list (string * json)) (k : string) : option string :=
  match dict_get items k with
  | Some (JString s) => Some s
  | _ => None
  end.

(** [BillUploadMessage] built from the keywords of [data]; [None] when
    the call raises ([TypeError] when [data] is not a mapping,
    [ValidationError] otherwise). Keys the model does not declare are
    ignored. *)
Definition BillUploadMessage_init (data : json) : option BillUploadMessage.t :=
  match data with
  | JObject items =>
      bill_id ← str_field items "bill_id";
      company_id ← str_field items "company_id";
      storage_path ← str_field items "storage_path";
      mime_type ← str_field items "mime_type";
      uploaded_at ← str_field items "uploaded_at";
      Some (BillUploadMessage.mk bill_id company_id storage_path mime_type uploaded_at)
  | _ => None
  end.

(** The data of a pulled message, by what
    [json.loads(message.data.decode("utf-8"))] does with it. *)
Inductive message_data : Type :=
| Undecodable            (* not UTF-8, or not JSON: the call raises *)
| Decoded (data : json).

(** The body of a push request, by what [pubsub_push] reads from it. *)
Inductive push_body : Type :=
| NotJson                (* [request.json()] raises *)
| NoMessage              (* a JSON object without the key "message" *)
| BadData                (* no "data", or not base64, UTF-8 or JSON *)
| Data (data : json).    (* "data" decodes to this JSON value *)

(** ** The collaborators of one delivery

    What the database, the object store and the AI service answer while
    one message is processed. [Some e] in an [option exn] field means that
    the call raises [e].

    [index_scan] is the plan of the duplicate query. The ordered column
    carries the index [idx_bills_visual_fingerprint_hnsw] of
    [app/models.py], an HNSW index for approximate nearest neighbours.
    [None]: the planner reads the table, filters and sorts, which answers
    the query exactly. [Some ids]: the planner scans the index, which
    yields the rows [ids] in this order, nearest first as far as the
    index finds them, and the [where] clause is applied to these rows
    afterwards; the index need not yield every row, nor the nearest one
    first, and it yields rows of every tenant and status. *)

Record Env : Type := {
  execute_get_bill : option exn;
  commit_processing : option exn;
  download_as_bytes : string → result bytes;
  generate_content : bytes → string → result (option string);
  embed_content : string → result (option (list vector));
  execute_search : option exn;
  index_scan : option (list uuid);
  utcnow : datetime;
  commit_terminal : option exn;
  commit_failed : option exn
}.

(** ** The session: the committed table and the loaded [bill] object *)

Record session : Type := { db : gmap N Bill.t; bill : Bill.t }.

Definition M (A : Type) : Type := session → session * result A.

Definition ret {A} (a : A) : M A := fun s => (s, Ok a).

Definition bind {A B} (m : M A) (k : A → M B) : M B :=
  fun s =>
    match m s with
    | (s', Ok a) => k a s'
    | (s', Raise e) => (s', Raise e)
    end.

Notation "'let*' x ':=' m 'in' k" := (bind m (fun x => k))
  (at level 10, x name, m at level 100, k at level 200).
Notation "m '>>' k" := (bind m (fun _ => k))
  (at level 90, right associativity).

(** A call whose outcome is already known. *)
Definition call {A} (r : result A) : M A := fun s => (s, r).

(** [raise e]. *)
Definition raise {A} (e : exn) : M A := fun s => (s, Raise e).

(** [bill.x = v]. *)
Definition assign (f : Bill.t → Bill.t) : M unit :=
  fun s => ({| db := db s; bill := f (bill s) |}, Ok tt).

(** [await session.commit()]. When it succeeds the row of [bill_id]
    becomes the object. When it raises, the table keeps its rows and the
    transaction is rolled back: the attributes assigned since the last
    successful commit are dropped, and the object stands for the committed
    row again. *)
Definition commit (bill_id : uuid) (failure : option exn) : M unit :=
  fun s =>
    match failure with
    | None => ({| db := <[bill_id := bill s]> (db s); bill := bill s |}, Ok tt)
    | Some e => ({| db := db s; bill := default (bill s) (db s !! bill_id) |}, Raise e)
    end.

(** [try: body  except Exception as e: handler e]. *)
Definition try_except {A} (body : M A) (handler : exn → M A) : M A :=
  fun s =>
    match body s with
    | (s', Ok a) => (s', Ok a)
    | (s', Raise e) => handler e s'
    end.

(** ** [app/scanner.py] and [app/worker.py] *)

(** The record [extract_from_image] returns from its [except] branch. *)
Definition extraction_failed : ExtractedBillData.t :=
  {| ExtractedBillData.vendor_name := "Extraction Failed";
     ExtractedBillData.vendor_tax_number := None;
     ExtractedBillData.vendor_address := None;
     ExtractedBillData.bill_number := None;
     ExtractedBillData.bill_date := None;
     ExtractedBillData.bill_time := None;
     ExtractedBillData.subtotal := None;
     ExtractedBillData.vat_8_percent := None;
     ExtractedBillData.vat_18_percent := None;
     ExtractedBillData.total_vat := None;
     ExtractedBillData.total_amount := F.zero;
     ExtractedBillData.currency := "EUR";
     ExtractedBillData.line_items := [];
     ExtractedBillData.payment_method := None;
     ExtractedBillData.confidence_score := F.zero |}.

(** [[0.0] * 768]. *)
Definition zero_vector : vector := repeat F.zero 768.

(** A component of a [vector] column: pgvector stores 4-byte floats, so a
    Python float is rounded to the nearest single-precision value, ties
    to even. *)
Definition float4 (x : float) : float :=
  match Prim2SF x with
  | S754_finite s m e => SF2Prim (binary_round 24 128 s m e)
  | _ => x
  end.

(** The dict [_check_duplicate] returns. *)
Record duplicate_info : Type := {
  is_duplicate : bool;
  duplicate_id : option uuid;
  similarity : float
}.

Definition not_duplicate : duplicate_info :=
  {| is_duplicate := false; duplicate_id := None; similarity := F.zero |}.

(** What the adapter tells the broker. *)
Inductive delivery : Type := Ack | Nack.

(** A vector all of whose components are zero. *)
Definition all_zero (v : vector) : bool := forallb (fun x => PrimFloat.eqb x F.zero) v.

(** The terminal values of [Bill.status]. *)
Definition terminal (status : string) : bool :=
  String.eqb status "completed" || String.eqb status "duplicate" || String.eqb status "failed".

(** The ways a run of the pipeline rewrites a row [b] when it commits:
    the four transitions of [Bill.status] with the columns each one
    assigns. *)
Inductive rewritten (b : Bill.t) : Bill.t → Prop :=
| to_processing :
    rewritten b (Bill.set_status "processing" b)
| to_failed detail :
    rewritten b (Bill.set_error_message (Some detail) (Bill.set_status "failed" b))
| to_duplicate original score now :
    rewritten b
      (Bill.set_processed_at (Some now)
        (Bill.set_similarity_score (Some score)
          (Bill.set_duplicate_of_id original
            (Bill.set_is_duplicate true (Bill.set_status "duplicate" b)))))
| to_completed vendor tax number date total currency items raw fingerprint now :
    rewritten b
      (Bill.set_processed_at (Some now)
        (Bill.set_visual_fingerprint (Some fingerprint)
          (Bill.set_raw_extraction raw
            (Bill.set_line_items items
              (Bill.set_currency currency
                (Bill.set_total_amount total
                  (Bill.set_bill_date date
                    (Bill.set_bill_number number
                      (Bill.set_vendor_tax_number tax
                        (Bill.set_vendor_name vendor
                          (Bill.set_status "completed" b))))))))))).

(** Library functions the worker calls, taken as they are:
    [uuid.UUID(s)] ([None] when it raises [ValueError]), pgvector's
    cosine-distance operator on a stored fingerprint and the vector of
    the query, [datetime.strptime] ([None] when it raises [ValueError]),
    pydantic's [model_validate_json] and [str] of a float. *)
Class Library : Type := {
  UUID : string → option uuid;
  cosine_distance : vector → vector → float;
  strptime : string → string → option datetime;
  model_validate_json : string → result ExtractedBillData.t;
  float_str : float → string
}.

Section Worker.

Context {lib : Library}.

(** *** [BillScanner] *)

(** The [try] block of [extract_from_image]. *)
Definition extract_from_image_try (env : Env) (image_data : bytes) (mime_type : string)
  : result ExtractedBillData.t :=
  match generate_content env image_data mime_type with
  | Raise e => Raise e
  | Ok text =>
      if truthy text then model_validate_json (default "" text)
      else Raise (Exn "ValueError" "Empty response from Gemini API")
  end.

Definition extract_from_image (env : Env) (image_data : bytes) (mime_type : string)
  : ExtractedBillData.t :=
  match extract_from_image_try env image_data mime_type with
  | Ok extracted => extracted
  | Raise _ => extraction_failed
  end.

Definition item_text (item : ExtractedLineItem.t) : string :=
  "Item: " +:+ ExtractedLineItem.description item
  +:+ " x" +:+ float_str (ExtractedLineItem.quantity item)
  +:+ " = " +:+ float_str (ExtractedLineItem.total_price item).

Definition generate_text_for_embedding (extracted_data : ExtractedBillData.t) : string :=
  let parts : list string :=
    app
      [ "Vendor: " +:+ ExtractedBillData.vendor_name extracted_data;
        "NUI: " +:+ or_else (ExtractedBillData.vendor_tax_number extracted_data) "N/A";
        "Bill: " +:+ or_else (ExtractedBillData.bill_number extracted_data) "N/A";
        "Date: " +:+ or_else (ExtractedBillData.bill_date extracted_data) "N/A";
        "Total: " +:+ float_str (ExtractedBillData.total_amount extracted_data)
          +:+ " " +:+ ExtractedBillData.currency extracted_data ]
      (map item_text (ExtractedBillData.line_items extracted_data)) in
  String.concat " | " parts.

Definition generate_embedding (env : Env) (text : string) : vector :=
  match embed_content env text with
  | Ok (Some (embedding :: _)) => embedding
  | Ok _ => zero_vector
  | Raise _ => zero_vector
  end.

(** *** [BillProcessor] *)

Definition _get_bill (rows : gmap N Bill.t) (bill_id company_id : uuid) : option Bill.t :=
  match rows !! bill_id with
  | Some b => if N.eqb (Bill.company_id b) company_id then Some b else None
  | None => None
  end.

(** The [where] clause of the duplicate query. *)
Definition is_candidate (company_id : uuid) (b : Bill.t) : bool :=
  N.eqb (Bill.company_id b) company_id
  && String.eqb (Bill.status b) "completed"
  && negb (Bill.is_duplicate b)
  && bool_decide (is_Some (Bill.visual_fingerprint b)).

(** The selected columns of one row: [Bill.id] and the labelled distance. *)
Definition select_row (company_id : uuid) (embedding : vector) (r : N * Bill.t)
  : option (uuid * float) :=
  if is_candidate company_id r.2 then
    match Bill.visual_fingerprint r.2 with
    | Some fingerprint => Some (r.1, cosine_distance fingerprint embedding)
    | None => None
    end
  else None.

Definition select_rows (rows : gmap N Bill.t) (company_id : uuid) (embedding : vector)
  : list (uuid * float) :=
  omap (select_row company_id embedding) (map_to_list rows).

(** [order_by("distance").limit(1)] then [result.first()] when the
    planner sorts the filtered rows itself ([index_scan env = None]): a
    row before which no other row sorts. Among rows of equal distance the
    database may return any; the model keeps the earliest one. *)
Fixpoint first_by_distance (best : uuid * float) (rest : list (uuid * float)) : uuid * float :=
  match rest with
  | [] => best
  | r :: rest' => first_by_distance (if F.pg_lt r.2 best.2 then r else best) rest'
  end.

Definition first_row (rows : list (uuid * float)) : option (uuid * float) :=
  match rows with
  | [] => None
  | r :: rest => Some (first_by_distance r rest)
  end.

(** The rows of the query when the planner scans the index: the rows
    [ids] the index yields, in its order, without those the [where]
    clause rejects. *)
Definition index_rows (rows : gmap N Bill.t) (company_id : uuid) (embedding : vector)
  (ids : list uuid) : list (uuid * float) :=
  omap (fun id => b ← rows !! id; select_row company_id embedding (id, b)) ids.

(** [result.first()] of the duplicate query under the plan of [env]. *)
Definition query_first (env : Env) (rows : gmap N Bill.t) (company_id : uuid)
  (embedding : vector) : option (uuid * float) :=
  match index_scan env with
  | None => first_row (select_rows rows company_id embedding)
  | Some ids => head (index_rows rows company_id embedding ids)
  end.

Definition _check_duplicate (env : Env) (rows : gmap N Bill.t) (company_id : uuid)
  (embedding : vector) : result duplicate_info :=
  match execute_search env with
  | Some e => Raise e
  | None =>
      match query_first env rows company_id embedding with
      | Some (id, distance) =>
          let similarity := PrimFloat.sub F.one distance in
          if F.ge similarity F.threshold then
            Ok {| is_duplicate := true; duplicate_id := Some id; similarity := similarity |}
          else Ok not_duplicate
      | None => Ok not_duplicate
      end
  end.

Definition _download_from_gcs (env : Env) (storage_path : string) : result bytes :=
  download_as_bytes env storage_path.

Fixpoint first_format (date_str : string) (formats : list string) : option datetime :=
  match formats with
  | [] => None
  | fmt :: rest =>
      match strptime date_str fmt with
      | Some d => Some d
      | None => first_format date_str rest
      end
  end.

Definition _parse_date (date_str : string) : option datetime :=
  first_format date_str ["%Y-%m-%d"; "%d/%m/%Y"; "%d.%m.%Y"; "%Y/%m/%d"].

(** Step 5 of [process_bill_message], the branch of a duplicate. *)
Definition mark_duplicate (info : duplicate_info) : M unit :=
  assign (Bill.set_status "duplicate") >>
  assign (Bill.set_is_duplicate true) >>
  assign (Bill.set_duplicate_of_id (duplicate_id info)) >>
  assign (Bill.set_similarity_score (Some (similarity info))).

(** Step 5, the branch that saves the extracted data. The attribute
    [visual_fingerprint] is written as the column [Vector(768)] holds it
    once committed, each component in single precision. (A component
    that is NaN or rounds to an infinity is refused by the database: the
    terminal commit raises, which is [commit_terminal].) *)
Definition save_extracted (extracted_data : ExtractedBillData.t) (embedding : vector) : M unit :=
  assign (Bill.set_status "completed") >>
  assign (Bill.set_vendor_name (Some (ExtractedBillData.vendor_name extracted_data))) >>
  assign (Bill.set_vendor_tax_number (ExtractedBillData.vendor_tax_number extracted_data)) >>
  assign (Bill.set_bill_number (ExtractedBillData.bill_number extracted_data)) >>
  (if truthy (ExtractedBillData.bill_date extracted_data)
   then assign (Bill.set_bill_date
                  (_parse_date (default "" (ExtractedBillData.bill_date extracted_data))))
   else ret tt) >>
  assign (Bill.set_total_amount (Some (ExtractedBillData.total_amount extracted_data))) >>
  assign (Bill.set_currency (Some (ExtractedBillData.currency extracted_data))) >>
  assign (Bill.set_line_items (Some (ExtractedBillData.line_items extracted_data))) >>
  assign (Bill.set_raw_extraction (Some extracted_data)) >>
  assign (Bill.set_visual_fingerprint (Some (map float4 embedding))).

(** The [try] block of [process_bill_message], from the first assignment
    to [bill.status]. *)
Definition pipeline (env : Env) (message_data : BillUploadMessage.t)
  (bill_id company_id : uuid) : M unit :=
  assign (Bill.set_status "processing") >>
  commit bill_id (commit_processing env) >>
  let* image_data := call (_download_from_gcs env (BillUploadMessage.storage_path message_data)) in
  let extracted_data :=
    extract_from_image env image_data (BillUploadMessage.mime_type message_data) in
  let text_for_embedding := generate_text_for_embedding extracted_data in
  let embedding := generate_embedding env text_for_embedding in
  let* info := (fun s => (s, _check_duplicate env (db s) company_id embedding)) in
  (if is_duplicate info then mark_duplicate info
   else save_extracted extracted_data embedding) >>
  assign (Bill.set_processed_at (Some (utcnow env))) >>
  commit bill_id (commit_terminal env).

(** The [except Exception as e] block. *)
Definition on_exception (env : Env) (bill_id : uuid) (e : exn) : M unit :=
  assign (Bill.set_status "failed") >>
  assign (Bill.set_error_message (Some (exn_str e))) >>
  commit bill_id (commit_failed env) >>
  raise e.

Definition bad_uuid : exn := Exn "ValueError" "badly formed hexadecimal UUID string".

(** When the lookup itself raises, the handler reads [bill] before it was
    ever bound. *)
Definition unbound_bill : exn :=
  Exn "UnboundLocalError"
      "cannot access local variable 'bill' where it is not associated with a value".

(** [process_bill_message]: the table after the call, and whether the
    call returned or raised. The two [UUID] conversions come before the
    session is opened. On the way out of [db.get_session()] nothing is
    left to write: the closing commit finds no pending change, and the
    rollback after an exception discards what was not committed. *)
Definition process_bill_message (env : Env) (message_data : BillUploadMessage.t)
  (rows : gmap N Bill.t) : gmap N Bill.t * result unit :=
  match UUID (BillUploadMessage.bill_id message_data) with
  | None => (rows, Raise bad_uuid)
  | Some bill_id =>
      match UUID (BillUploadMessage.company_id message_data) with
      | None => (rows, Raise bad_uuid)
      | Some company_id =>
          match execute_get_bill env with
          | Some _ => (rows, Raise unbound_bill)
          | None =>
              match _get_bill rows bill_id company_id with
              | None => (rows, Ok tt)
              | Some b =>
                  let '(s, r) :=
                    try_except (pipeline env message_data bill_id company_id)
                               (on_exception env bill_id)
                               {| db := rows; bill := b |} in
                  (db s, r)
              end
          end
      end
  end.

(** The [try] block of [message_callback] up to the call of the pipeline. *)
Definition parse_message (message : message_data) : option BillUploadMessage.t :=
  match message with
  | Undecodable => None
  | Decoded data => BillUploadMessage_init data
  end.

(** [message_callback], the pull adapter. *)
Definition message_callback (env : Env) (message : message_data) (rows : gmap N Bill.t)
  : gmap N Bill.t * delivery :=
  match parse_message message with
  | None => (rows, Nack)
  | Some message_data =>
      match process_bill_message env message_data rows with
      | (rows', Ok _) => (rows', Ack)
      | (rows', Raise _) => (rows', Nack)
      end
  end.

(** *** [app/worker_service.py]: the push adapter *)

Record response : Type := { status_code : Z; status_field : string }.

Definition pubsub_push (env : Env) (body : push_body) (rows : gmap N Bill.t)
  : gmap N Bill.t * response :=
  match body with
  | Data data =>
      match BillUploadMessage_init data with
      | Some bill_message =>
          match process_bill_message env bill_message rows with
          | (rows', Ok _) => (rows', {| status_code := 200; status_field := "success" |})
          | (rows', Raise _) => (rows', {| status_code := 200; status_field := "error" |})
          end
      | None => (rows, {| status_code := 200; status_field := "error" |})
      end
  | _ => (rows, {| status_code := 200; status_field := "error" |})
  end.

(** Pub/Sub takes any 2xx answer to a push as an acknowledgement. *)
Definition push_delivery (r : response) : delivery :=
  if (200 <=? status_code r)%Z && (status_code r <? 300)%Z then Ack else Nack.

(** *** Words of the specification *)

(** Row [id] is a candidate of the search of tenant [company_id], at
    [distance] from [embedding]: same tenant, completed, not marked
    duplicate, with a fingerprint. *)
Definition candidate (rows : gmap N Bill.t) (company_id : uuid) (embedding : vector)
  (id : uuid) (distance : float) : Prop :=
  ∃ b fingerprint,
    rows !! id = Some b
    ∧ Bill.company_id b = company_id
    ∧ Bill.status b = "completed"
    ∧ Bill.is_duplicate b = false
    ∧ Bill.visual_fingerprint b = Some fingerprint
    ∧ distance = cosine_distance fingerprint embedding.

End Worker.

(** ** More of the worker and of the publisher

    [model_dump_json] of a [BillUploadMessage], as [json.loads] reads it
    back: an object with the five fields in declaration order. This is
    the payload [upload_bill] publishes. *)
Definition BillUploadMessage_fields (m : BillUploadMessage.t) : list (string * json) :=
  [ ("bill_id", JString (BillUploadMessage.bill_id m));
    ("company_id", JString (BillUploadMessage.company_id m));
    ("storage_path", JString (BillUploadMessage.storage_path m));
    ("mime_type", JString (BillUploadMessage.mime_type m));
    ("uploaded_at", JString (BillUploadMessage.uploaded_at m)) ].

Definition BillUploadMessage_dump (m : BillUploadMessage.t) : json :=
  JObject (BillUploadMessage_fields m).

Section Step5.

Context {lib : Library}.

(** The object after step 5 of [process_bill_message] and the assignment
    of [processed_at], obtained by running these assignments on [b]. *)
Definition step5 (info : duplicate_info) (extracted_data : ExtractedBillData.t)
  (embedding : vector) (now : datetime) (b : Bill.t) : Bill.t :=
  bill
    (((if is_duplicate info then mark_duplicate info
       else save_extracted extracted_data embedding) >>
      assign (Bill.set_processed_at (Some now))) {| db := ∅; bill := b |}).1.

(** The columns of a line item that [generate_text_for_embedding] prints. *)
Definition printed_columns (item : ExtractedLineItem.t) : string * float * float :=
  (ExtractedLineItem.description item, ExtractedLineItem.quantity item,
   ExtractedLineItem.total_price item).

End Step5.

(** ** [app/main.py]: the endpoints that feed and read the table

    The columns of [companies] the endpoints read and write; the primary
    key [id] is the key of the table. [monthly_scan_limit] and
    [monthly_scans_used] are inserted with their column defaults, so they
    are integers in every row. *)

Module Company.
Record t : Type := mk {
  name : string;
  tax_number : string;
  email : string;
  is_active : bool;
  subscription_tier : option string;
  monthly_scan_limit : Z;
  monthly_scans_used : Z
}.

Definition set_monthly_scans_used v (c : t) : t :=
  let '(mk n tn e a st l _) := c in mk n tn e a st l v.
End Company.

(** What an endpoint does with a request: it returns a value, raises an
    [HTTPException] (the [detail] text is left out), or lets another
    exception through, which the framework answers with status 500. *)
Inductive http (A : Type) : Type :=
| Respond (a : A)
| HTTPException (status_code : Z)
| Unhandled (e : exn).
Arguments Respond {A} a.
Arguments HTTPException {A} status_code.
Arguments Unhandled {A} e.

(** The uploaded file as the endpoint reads it: its name, its declared
    content type, which a client may leave out, and what [file.read()]
    returns. The name is a string: an upload without a file name is not
    covered. *)
Module UploadFile.
Record t : Type := mk {
  filename : string;
  content_type : option string;
  content : bytes
}.
End UploadFile.

Module BillUploadResponse.
Record t : Type := mk {
  bill_id : uuid;
  status : string;
  message : string;
  storage_path : string
}.
End BillUploadResponse.

Module BillListResponse.
Record t : Type := mk {
  bills : list (N * Bill.t);
  total : Z;
  page : Z;
  page_size : Z
}.
End BillListResponse.

(** What [upload_bill] reads and writes: the two tables, the objects of
    the bucket and the payloads published to the topic, oldest first. *)
Record site : Type := {
  companies : gmap N Company.t;
  bills : gmap N Bill.t;
  bucket : gmap string bytes;
  topic : list json
}.

(** The collaborators of one upload: the identifier [uuid.uuid4()] draws,
    the time stamp, and whether the blob write, the commit and the
    publication raise. *)
Record UploadEnv : Type := {
  uuid4 : uuid;
  upload_from_string : option exn;
  commit_upload : option exn;
  publish : option exn;
  utcnow_isoformat : string
}.

Definition allowed_types : list string :=
  ["image/jpeg"; "image/jpg"; "image/png"; "image/webp"; "application/pdf"].

(** [content_type in allowed_types]; [None] is in no list of strings. *)
Definition type_allowed (content_type : option string) : bool :=
  match content_type with
  | Some t => existsb (String.eqb t) allowed_types
  | None => false
  end.

(** [10 * 1024 * 1024]. *)
Definition max_size : Z := 10485760.

(** ["." in s]. *)
Fixpoint contains_dot (s : string) : bool :=
  match s with
  | EmptyString => false
  | String c rest => Ascii.eqb c "."%char || contains_dot rest
  end.

(** [s.split(".")[-1]]: what follows the last dot, or [s] when it has
    none. *)
Fixpoint last_segment (s : string) : string :=
  match s with
  | EmptyString => EmptyString
  | String c rest =>
      if contains_dot rest then last_segment rest
      else if Ascii.eqb c "."%char then rest
      else String c rest
  end.

Definition file_extension (filename : string) : string :=
  if contains_dot filename then last_segment filename else "jpg".

(** A primary key already in the table makes the [INSERT] fail. *)
Definition integrity_error : exn :=
  Exn "IntegrityError" "duplicate key value violates unique constraint".

Section Api.

Context {lib : Library}.

(** [str] of a [uuid.UUID]. *)
Variable uuid_str : uuid → string.

(** The dependency [get_current_company], from the [X-Company-Id] header
    to the tenant. *)
Definition get_current_company (x_company_id : string) (table : gmap N Company.t)
  : http (uuid * Company.t) :=
  match UUID x_company_id with
  | None => HTTPException 400
  | Some company_uuid =>
      match table !! company_uuid with
      | None => HTTPException 404
      | Some company =>
          if Company.is_active company then Respond (company_uuid, company)
          else HTTPException 403
      end
  end.

Definition check_scan_limit (company : Company.t) : http unit :=
  if (Company.monthly_scan_limit company <=? Company.monthly_scans_used company)%Z
  then HTTPException 429
  else Respond tt.

(** The row [upload_bill] inserts; the columns it does not name take
    their defaults. *)
Definition new_bill (company_id : uuid) (file : UploadFile.t) (storage_path : string)
  : Bill.t :=
  {| Bill.company_id := company_id;
     Bill.original_filename := UploadFile.filename file;
     Bill.storage_path := storage_path;
     Bill.file_size_bytes := Some (Z.of_nat (length (UploadFile.content file)));
     Bill.mime_type := UploadFile.content_type file;
     Bill.vendor_name := None;
     Bill.vendor_tax_number := None;
     Bill.bill_number := None;
     Bill.bill_date := None;
     Bill.total_amount := None;
     Bill.currency := Some "EUR";
     Bill.line_items := None;
     Bill.raw_extraction := None;
     Bill.visual_fingerprint := None;
     Bill.status := "pending";
     Bill.error_message := None;
     Bill.is_duplicate := false;
     Bill.duplicate_of_id := None;
     Bill.similarity_score := None;
     Bill.processed_at := None |}.

Definition upload_path (company_id bill_id : uuid) (filename : string) : string :=
  "bills/" +:+ uuid_str company_id +:+ "/" +:+ uuid_str bill_id
  +:+ "." +:+ file_extension filename.

Definition upload_message (env : UploadEnv) (company_id : uuid) (file : UploadFile.t)
  : BillUploadMessage.t :=
  {| BillUploadMessage.bill_id := uuid_str (uuid4 env);
     BillUploadMessage.company_id := uuid_str company_id;
     BillUploadMessage.storage_path :=
       upload_path company_id (uuid4 env) (UploadFile.filename file);
     BillUploadMessage.mime_type := default "" (UploadFile.content_type file);
     BillUploadMessage.uploaded_at := utcnow_isoformat env |}.

(** [upload_bill] for the tenant [company_id], whose row is [company]:
    the site after the request and the answer. What was written before a
    later step raised stays written: the blob when the commit raises, and
    the blob, the row and the counter when the publication raises. *)
Definition upload_bill (env : UploadEnv) (file : UploadFile.t) (company_id : uuid)
  (company : Company.t) (s : site) : site * http BillUploadResponse.t :=
  if negb (type_allowed (UploadFile.content_type file))
  then (s, HTTPException 400)
  else if (max_size <? Z.of_nat (length (UploadFile.content file)))%Z
  then (s, HTTPException 400)
  else
    match check_scan_limit company with
    | HTTPException code => (s, HTTPException code)
    | Unhandled e => (s, Unhandled e)
    | Respond _ =>
        let bill_id := uuid4 env in
        let storage_path := upload_path company_id bill_id (UploadFile.filename file) in
        match upload_from_string env with
        | Some e => (s, Unhandled e)
        | None =>
            let stored :=
              {| companies := companies s; bills := bills s;
                 bucket := <[storage_path := UploadFile.content file]> (bucket s);
                 topic := topic s |} in
            match
              (if bool_decide (is_Some (bills s !! bill_id)) then Some integrity_error
               else commit_upload env)
            with
            | Some e => (stored, Unhandled e)
            | None =>
                let committed :=
                  {| companies :=
                       <[company_id :=
                           Company.set_monthly_scans_used
                             (Company.monthly_scans_used company + 1)%Z company]>
                         (companies s);
                     bills := <[bill_id := new_bill company_id file storage_path]> (bills s);
                     bucket := bucket stored;
                     topic := topic s |} in
                match publish env with
                | Some e => (committed, Unhandled e)
                | None =>
                    ({| companies := companies committed;
                        bills := bills committed;
                        bucket := bucket committed;
                        topic :=
                          topic s ++ [BillUploadMessage_dump (upload_message env company_id file)]
                     |},
                     Respond
                       {| BillUploadResponse.bill_id := bill_id;
                          BillUploadResponse.status := "pending";
                          BillUploadResponse.message :=
                            "Bill uploaded successfully. Processing will begin shortly.";
                          BillUploadResponse.storage_path := storage_path |})
                end
            end
        end
    end.

(** The request [POST /upload]: the dependency, then the endpoint. *)
Definition post_upload (env : UploadEnv) (x_company_id : string) (file : UploadFile.t)
  (s : site) : site * http BillUploadResponse.t :=
  match get_current_company x_company_id (companies s) with
  | Respond (company_id, company) => upload_bill env file company_id company s
  | HTTPException code => (s, HTTPException code)
  | Unhandled e => (s, Unhandled e)
  end.

(** [list_bills]. [newest_first] is the [bills] table in the order of
    [Bill.created_at.desc()], a column the table above leaves out.
    [execute_list] tells whether one of the two queries raises for a
    reason of the database. The offset is a Python integer without
    bound, sent to the database as the parameter of [OFFSET], a 64-bit
    integer: beyond that range the paging query raises whatever the
    database holds. The endpoint catches nothing, so either way the
    request ends with status 500. *)
Definition int64_max : Z := 9223372036854775807.

Definition out_of_range : exn := Exn "DBAPIError" "value out of int64 range".

Definition effective_page (page : Z) : Z :=
  if (page <? 1)%Z then 1%Z else page.

Definition effective_page_size (page_size : Z) : Z :=
  if (page_size <? 1)%Z || (100 <? page_size)%Z then 20%Z else page_size.

Definition listed (company_id : uuid) (status_filter : option string) (r : N * Bill.t)
  : bool :=
  N.eqb (Bill.company_id r.2) company_id
  && (if truthy status_filter
      then String.eqb (Bill.status r.2) (default "" status_filter)
      else true).

Definition list_bills (execute_list : option exn) (newest_first : list (N * Bill.t))
  (company_id : uuid) (page page_size : Z) (status_filter : option string)
  : http BillListResponse.t :=
  let page := effective_page page in
  let page_size := effective_page_size page_size in
  let selected := List.filter (listed company_id status_filter) newest_first in
  let offset := ((page - 1) * page_size)%Z in
  match execute_list with
  | Some e => Unhandled e
  | None =>
      if (int64_max <? offset)%Z then Unhandled out_of_range
      else
        Respond
          {| BillListResponse.bills :=
               take (Z.to_nat page_size) (drop (Z.to_nat offset) selected);
             BillListResponse.total := Z.of_nat (length selected);
             BillListResponse.page := page;
             BillListResponse.page_size := page_size |}
  end.

End Api.

(** ** A reference library and sample data

    Concrete stand-ins for the library functions, used to run the model on
    sample deliveries. *)

Module Example.

(** [uuid.UUID] on 32 hexadecimal digits, hyphens ignored. *)
Definition hex_digit (c : ascii) : option N :=
  let n := N_of_ascii c in
  if (48 <=? n)%N && (n <=? 57)%N then Some (n - 48)%N
  else if (97 <=? n)%N && (n <=? 102)%N then Some (n - 87)%N
  else if (65 <=? n)%N && (n <=? 70)%N then Some (n - 55)%N
  else None.

Fixpoint hex_value (acc : N) (digits : nat) (s : string) : option (N * nat) :=
  match s with
  | EmptyString => Some (acc, digits)
  | String c rest =>
      if Ascii.eqb c "-"%char then hex_value acc digits rest
      else
        match hex_digit c with
        | Some d => hex_value (16 * acc + d)%N (S digits) rest
        | None => None
        end
  end.

Definition parse_uuid (s : string) : option uuid :=
  match hex_value 0%N 0 s with
  | Some (n, 32) => Some n
  | _ => None
  end.

(** Cosine distance in binary64: one minus the cosine similarity, which
    is kept within [-1, 1]. Against a vector of norm 0 it is NaN. *)
Fixpoint dot (a b : vector) : float :=
  match a, b with
  | x :: a', y :: b' => PrimFloat.add (PrimFloat.mul x y) (dot a' b')
  | _, _ => F.zero
  end.

Definition cosine_distance_f64 (a b : vector) : float :=
  let s := PrimFloat.div (dot a b) (PrimFloat.sqrt (PrimFloat.mul (dot a a) (dot b b))) in
  let s := if PrimFloat.ltb F.one s then F.one
           else if PrimFloat.ltb s (PrimFloat.opp F.one) then PrimFloat.opp F.one
           else s in
  PrimFloat.sub F.one s.

(** The same distance under the convention that the similarity with a
    zero vector is 0, that is, the distance is 1. *)
Definition cosine_distance_conv (a b : vector) : float :=
  if all_zero b then F.one
  else if all_zero a then F.one
  else cosine_distance_f64 a b.

(** A receipt of vendor ShopCo, total 25.00 EUR. *)
Definition shopco : ExtractedBillData.t :=
  {| ExtractedBillData.vendor_name := "ShopCo";
     ExtractedBillData.vendor_tax_number := Some "810000001";
     ExtractedBillData.vendor_address := None;
     ExtractedBillData.bill_number := Some "Market-001";
     ExtractedBillData.bill_date := None;
     ExtractedBillData.bill_time := None;
     ExtractedBillData.subtotal := None;
     ExtractedBillData.vat_8_percent := None;
     ExtractedBillData.vat_18_percent := None;
     ExtractedBillData.total_vat := None;
     ExtractedBillData.total_amount := 25%float;
     ExtractedBillData.currency := "EUR";
     ExtractedBillData.line_items := [];
     ExtractedBillData.payment_method := None;
     ExtractedBillData.confidence_score := F.one |}.

(** A receipt of a cafe, total 3.50 EUR. *)
Definition cafe : ExtractedBillData.t :=
  {| ExtractedBillData.vendor_name := "Cafe Dukagjini";
     ExtractedBillData.vendor_tax_number := Some "810000002";
     ExtractedBillData.vendor_address := None;
     ExtractedBillData.bill_number := Some "Cafe-007";
     ExtractedBillData.bill_date := None;
     ExtractedBillData.bill_time := None;
     ExtractedBillData.subtotal := None;
     ExtractedBillData.vat_8_percent := None;
     ExtractedBillData.vat_18_percent := None;
     ExtractedBillData.total_vat := None;
     ExtractedBillData.total_amount := 3.5%float;
     ExtractedBillData.currency := "EUR";
     ExtractedBillData.line_items := [];
     ExtractedBillData.payment_method := None;
     ExtractedBillData.confidence_score := F.one |}.

Definition validation_error : exn :=
  Exn "ValidationError" "1 validation error for ExtractedBillData".

(** The texts "Market-001" and "Cafe-007" stand for the JSON texts of
    [shopco] and [cafe]; every other text fails validation. *)
Definition validate (text : string) : result ExtractedBillData.t :=
  if String.eqb text "Market-001" then Ok shopco
  else if String.eqb text "Cafe-007" then Ok cafe
  else Raise validation_error.

(** [str] on the totals the samples print. *)
Definition print_float (x : float) : string :=
  if PrimFloat.eqb x F.zero then "0.0"
  else if PrimFloat.eqb x 25%float then "25.0"
  else "3.5".

Definition library (distance : vector → vector → float) : Library :=
  {| UUID := parse_uuid;
     cosine_distance := distance;
     strptime := fun _ _ => None;
     model_validate_json := validate;
     float_str := print_float |}.

Definition tenant_x : uuid := 161%N.
Definition tenant_y : uuid := 162%N.

(** A row as [upload_bill] inserts it. *)
Definition pending (company_id : uuid) (storage_path : string) : Bill.t :=
  {| Bill.company_id := company_id;
     Bill.original_filename := "receipt.jpg";
     Bill.storage_path := storage_path;
     Bill.file_size_bytes := Some 1024%Z;
     Bill.mime_type := Some "image/jpeg";
     Bill.vendor_name := None;
     Bill.vendor_tax_number := None;
     Bill.bill_number := None;
     Bill.bill_date := None;
     Bill.total_amount := None;
     Bill.currency := Some "EUR";
     Bill.line_items := None;
     Bill.raw_extraction := None;
     Bill.visual_fingerprint := None;
     Bill.status := "pending";
     Bill.error_message := None;
     Bill.is_duplicate := false;
     Bill.duplicate_of_id := None;
     Bill.similarity_score := None;
     Bill.processed_at := None |}.

(** Unit vectors of dimension 768. *)
Definition e1 : vector := F.one :: repeat F.zero 767.
Definition e2 : vector := F.zero :: F.one :: repeat F.zero 766.

(** The job of bill [n] (a hexadecimal digit) of tenant [tenant]. *)
Definition job (n tenant : string) : BillUploadMessage.t :=
  {| BillUploadMessage.bill_id := "00000000-0000-0000-0000-00000000000" +:+ n;
     BillUploadMessage.company_id := "00000000-0000-0000-0000-0000000000" +:+ tenant;
     BillUploadMessage.storage_path := "bills/" +:+ tenant +:+ "/" +:+ n +:+ ".jpg";
     BillUploadMessage.mime_type := "image/jpeg";
     BillUploadMessage.uploaded_at := "2026-01-05T10:00:00" |}.

(** A delivery in which every collaborator answers: the extraction
    service returns [text] and the embedding service returns [embedding]
    at time [now]. *)
Definition healthy (text : string) (embedding : vector) (now : datetime) : Env :=
  {| execute_get_bill := None;
     commit_processing := None;
     download_as_bytes := fun _ => Ok [];
     generate_content := fun _ _ => Ok (Some text);
     embed_content := fun _ => Ok (Some [embedding]);
     execute_search := None;
     index_scan := None;
     utcnow := now;
     commit_terminal := None;
     commit_failed := None |}.

Definition timeout_error : exn := Exn "TimeoutError" "The read operation timed out".

(** The extraction service times out; everything else answers. *)
Definition extraction_down (embedding : vector) (now : datetime) : Env :=
  {| execute_get_bill := None;
     commit_processing := None;
     download_as_bytes := fun _ => Ok [];
     generate_content := fun _ _ => Raise timeout_error;
     embed_content := fun _ => Ok (Some [embedding]);
     execute_search := None;
     index_scan := None;
     utcnow := now;
     commit_terminal := None;
     commit_failed := None |}.

Definition not_found : exn := Exn "NotFound" "404 No such object".

Definition data_error : exn :=
  Exn "DataError" "value too long for type character varying(10)".
Definition pending_rollback : exn :=
  Exn "PendingRollbackError"
      "This Session's transaction has been rolled back due to a previous exception during flush.".

(** The database rejects the row of the terminal commit; the session is
    left rolled back, so the commit of the handler raises as well. *)
Definition flush_rejected (text : string) (embedding : vector) (now : datetime) : Env :=
  {| execute_get_bill := None;
     commit_processing := None;
     download_as_bytes := fun _ => Ok [];
     generate_content := fun _ _ => Ok (Some text);
     embed_content := fun _ => Ok (Some [embedding]);
     execute_search := None;
     index_scan := None;
     utcnow := now;
     commit_terminal := Some data_error;
     commit_failed := Some pending_rollback |}.

(** A row the pipeline completed with [fingerprint]. *)
Definition completed (company_id : uuid) (storage_path : string) (fingerprint : vector)
  : Bill.t :=
  Bill.set_processed_at (Some 50%Z)
    (Bill.set_visual_fingerprint (Some fingerprint)
       (Bill.set_status "completed" (pending company_id storage_path))).

(** Tenant X holds a completed receipt; tenant Y holds a completed copy of
    the same receipt and a new upload. *)
Definition two_tenants : gmap N Bill.t :=
  <[1%N := completed tenant_x "bills/a1/1.jpg" e1]>
    (<[2%N := completed tenant_y "bills/a2/2.jpg" e1]>
       (<[3%N := pending tenant_y "bills/a2/3.jpg"]> ∅)).

(** The blob of the job is missing; everything else answers. *)
Definition blob_missing (now : datetime) : Env :=
  {| execute_get_bill := None;
     commit_processing := None;
     download_as_bytes := fun _ => Raise not_found;
     generate_content := fun _ _ => Ok None;
     embed_content := fun _ => Ok None;
     execute_search := None;
     index_scan := None;
     utcnow := now;
     commit_terminal := None;
     commit_failed := None |}.

(** A delivery at time 100 in which every collaborator answers. *)
Definition calm : Env := healthy "Market-001" e1 100%Z.

(** The payload of [job n tenant] as [json.loads] returns it. *)
Definition job_json (n tenant : string) : json :=
  JObject
    [ ("bill_id", JString (BillUploadMessage.bill_id (job n tenant)));
      ("company_id", JString (BillUploadMessage.company_id (job n tenant)));
      ("storage_path", JString (BillUploadMessage.storage_path (job n tenant)));
      ("mime_type", JString (BillUploadMessage.mime_type (job n tenant)));
      ("uploaded_at", JString (BillUploadMessage.uploaded_at (job n tenant))) ].

(** A payload that is JSON but lacks four of the five fields. *)
Definition incomplete_json : json :=
  JObject [ ("bill_id", JString "00000000-0000-0000-0000-000000000001") ].

(** The library with the binary64 cosine distance, and with the distance
    under the zero-vector convention. *)
Definition lib64 : Library := library cosine_distance_f64.
Definition lib_conv : Library := library cosine_distance_conv.

(** One delivery: the table it leaves. *)
Definition deliver (env : Env) (message_data : BillUploadMessage.t) (rows : gmap N Bill.t)
  : gmap N Bill.t :=
  (process_bill_message (lib := lib64) env message_data rows).1.

(** The row of bill [n]. *)
Definition row (n : N) (rows : gmap N Bill.t) : Bill.t :=
  default (pending 0%N "") (rows !! n).

(** Three uploads of tenant X, not yet processed. *)
Definition uploads : gmap N Bill.t :=
  <[1%N := pending tenant_x "bills/a1/1.jpg"]>
    (<[2%N := pending tenant_x "bills/a1/2.jpg"]>
       (<[3%N := pending tenant_x "bills/a1/3.jpg"]> ∅)).

(** Scenario A. Bill 1 is processed, then bill 2, a copy of the same
    receipt: bill 2 ends as a duplicate of bill 1. Then bill 3, the
    receipt of a cafe, is processed and completes. Then the job of bill 2
    is delivered once more, and this time the AI service answers as it did
    for bill 3. *)
Definition first_processed : gmap N Bill.t :=
  deliver (healthy "Market-001" e1 100%Z) (job "1" "a1") uploads.
Definition copy_processed : gmap N Bill.t :=
  deliver (healthy "Market-001" e1 200%Z) (job "2" "a1") first_processed.
Definition third_processed : gmap N Bill.t :=
  deliver (healthy "Cafe-007" e2 300%Z) (job "3" "a1") copy_processed.
Definition copy_redelivered : gmap N Bill.t :=
  deliver (healthy "Cafe-007" e2 400%Z) (job "2" "a1") third_processed.

(** The job of bill 1 is delivered once more after bill 1 was completed,
    with the same answers from every collaborator. *)
Definition first_redelivered : gmap N Bill.t :=
  deliver (healthy "Market-001" e1 500%Z) (job "1" "a1") first_processed.

(** The blob of bill 1 is missing at the first delivery, which the adapter
    rejects; the broker delivers the job again and the blob is there. *)
Definition blob_lost : gmap N Bill.t :=
  deliver (blob_missing 100%Z) (job "1" "a1") uploads.
Definition blob_retried : gmap N Bill.t :=
  deliver (healthy "Market-001" e1 200%Z) (job "1" "a1") blob_lost.

(** Scenario C. The extraction service is down while bill 1 is processed
    and again while bill 2 is processed; the embedding service answers
    [e2] for the text of the sentinel record. *)
Definition outage_first : gmap N Bill.t :=
  deliver (extraction_down e2 100%Z) (job "1" "a1") uploads.
Definition outage_second : gmap N Bill.t :=
  deliver (extraction_down e2 200%Z) (job "2" "a1") outage_first.

(** After the outage bill 2, a readable copy of the receipt of bill 1, is
    processed; then the job of bill 1 is delivered once more and its
    extraction succeeds. *)
Definition outage_then_copy : gmap N Bill.t :=
  deliver (healthy "Market-001" e1 200%Z) (job "2" "a1") outage_first.
Definition outage_redelivered : gmap N Bill.t :=
  deliver (healthy "Market-001" e1 300%Z) (job "1" "a1") outage_then_copy.

End Example.

(** ** Sample data for the endpoints and for further deliveries *)

Module Sample.

Definition hex_char (d : N) : ascii :=
  ascii_of_N (if (d <? 10)%N then 48 + d else 87 + d).

(** The [n] lowest hexadecimal digits of [v], highest first, before
    [acc]. *)
Fixpoint hex_digits (n : nat) (v : N) (acc : string) : string :=
  match n with
  | O => acc
  | S n' => hex_digits n' (v / 16)%N (String (hex_char (v mod 16)%N) acc)
  end.

(** [str] of a [uuid.UUID]: 32 digits in groups of 8, 4, 4, 4 and 12. *)
Definition uuid_str (u : uuid) : string :=
  let s := hex_digits 32 u "" in
  substring 0 8 s +:+ "-" +:+ substring 8 4 s +:+ "-" +:+ substring 12 4 s
  +:+ "-" +:+ substring 16 4 s +:+ "-" +:+ substring 20 12 s.

(** The cosine distance with the division by a zero norm spelled out:
    NaN against a zero vector. *)
Definition cosine_distance_nan (a b : vector) : float :=
  if all_zero b then PrimFloat.nan else Example.cosine_distance_f64 a b.

Definition lib_nan : Library := Example.library cosine_distance_nan.

(** The embedding service times out; the extraction service returns
    [text] and everything else answers. *)
Definition embedding_down (text : string) (now : datetime) : Env :=
  {| execute_get_bill := None;
     commit_processing := None;
     download_as_bytes := fun _ => Ok [];
     generate_content := fun _ _ => Ok (Some text);
     embed_content := fun _ => Raise Example.timeout_error;
     execute_search := None;
     index_scan := None;
     utcnow := now;
     commit_terminal := None;
     commit_failed := None |}.

(** The receipt of ShopCo read a second time: the same printed columns,
    an empty date instead of a missing one, and other values in the
    columns the embedding text leaves out. *)
Definition shopco_reread : ExtractedBillData.t :=
  {| ExtractedBillData.vendor_name := "ShopCo";
     ExtractedBillData.vendor_tax_number := Some "810000001";
     ExtractedBillData.vendor_address := Some "Rr. Nena Tereze, Prishtina";
     ExtractedBillData.bill_number := Some "Market-001";
     ExtractedBillData.bill_date := Some "";
     ExtractedBillData.bill_time := Some "10:15";
     ExtractedBillData.subtotal := Some 21.25%float;
     ExtractedBillData.vat_8_percent := None;
     ExtractedBillData.vat_18_percent := Some 3.75%float;
     ExtractedBillData.total_vat := Some 3.75%float;
     ExtractedBillData.total_amount := 25%float;
     ExtractedBillData.currency := "EUR";
     ExtractedBillData.line_items := [];
     ExtractedBillData.payment_method := Some "cash";
     ExtractedBillData.confidence_score := 0.5%float |}.

(** Bill 2, marked duplicate in scenario A, is delivered once more; this
    time the AI service answers with the receipt of the cafe, which
    matches nothing, and the run completes the row. *)
Definition copy_completed : gmap N Bill.t :=
  Example.deliver (Example.healthy "Cafe-007" Example.e2 400%Z) (Example.job "2" "a1")
    Example.copy_processed.

(** Three tenants: one in good standing, one inactive, one that has used
    up its scans. *)
Definition acme : Company.t :=
  {| Company.name := "Acme Sh.p.k.";
     Company.tax_number := "810000010";
     Company.email := "office@acme.example";
     Company.is_active := true;
     Company.subscription_tier := Some "free";
     Company.monthly_scan_limit := 100%Z;
     Company.monthly_scans_used := 3%Z |}.

Definition dormant : Company.t :=
  {| Company.name := "Dormant Sh.p.k.";
     Company.tax_number := "810000011";
     Company.email := "office@dormant.example";
     Company.is_active := false;
     Company.subscription_tier := Some "free";
     Company.monthly_scan_limit := 100%Z;
     Company.monthly_scans_used := 0%Z |}.

Definition exhausted : Company.t :=
  {| Company.name := "Busy Sh.p.k.";
     Company.tax_number := "810000012";
     Company.email := "office@busy.example";
     Company.is_active := true;
     Company.subscription_tier := Some "free";
     Company.monthly_scan_limit := 100%Z;
     Company.monthly_scans_used := 100%Z |}.

Definition tenant_z : uuid := 163%N.

Definition tenants : gmap N Company.t :=
  <[Example.tenant_x := acme]> (<[Example.tenant_y := dormant]> (<[tenant_z := exhausted]> ∅)).

Definition office : site :=
  {| companies := tenants; bills := Example.uploads; bucket := ∅; topic := [] |}.

(** The header [X-Company-Id] of tenant [tenant] (two hexadecimal
    digits). *)
Definition header (tenant : string) : string :=
  "00000000-0000-0000-0000-0000000000" +:+ tenant.

Definition receipt : UploadFile.t :=
  {| UploadFile.filename := "receipt.2026.jpeg";
     UploadFile.content_type := Some "image/jpeg";
     UploadFile.content := [Byte.xff; Byte.xd8; Byte.xff] |}.

(** An upload in which every collaborator answers; [uuid4] draws 4. *)
Definition smooth : UploadEnv :=
  {| uuid4 := 4%N;
     upload_from_string := None;
     commit_upload := None;
     publish := None;
     utcnow_isoformat := "2026-01-05T10:00:00" |}.

Definition deadline_exceeded : exn := Exn "DeadlineExceeded" "504 Deadline Exceeded".

(** The publication times out; the blob write and the commit succeed. *)
Definition publisher_down : UploadEnv :=
  {| uuid4 := 4%N;
     upload_from_string := None;
     commit_upload := None;
     publish := Some deadline_exceeded;
     utcnow_isoformat := "2026-01-05T10:00:00" |}.

Definition receipt_path : string :=
  "bills/00000000-0000-0000-0000-0000000000a1/00000000-0000-0000-0000-000000000004.jpeg".

(** The answer to the upload of [receipt] by tenant X. *)
Definition answer : BillUploadResponse.t :=
  {| BillUploadResponse.bill_id := 4%N;
     BillUploadResponse.status := "pending";
     BillUploadResponse.message :=
       "Bill uploaded successfully. Processing will begin shortly.";
     BillUploadResponse.storage_path := receipt_path |}.

(** The site after tenant X uploaded [receipt], and after the same upload
    with the publisher down. *)
Definition accepted : site :=
  (post_upload (lib := Example.lib64) uuid_str smooth (header "a1") receipt office).1.

Definition unannounced : site :=
  (upload_bill uuid_str publisher_down receipt Example.tenant_x acme office).1.

(** The rows of scenario A and an upload of tenant Y, newest first. *)
Definition listing : list (N * Bill.t) :=
  [ (5%N, Example.pending Example.tenant_x "bills/a1/5.jpg");
    (4%N, Example.pending Example.tenant_y "bills/a2/4.jpg");
    (3%N, Example.row 3 Example.third_processed);
    (2%N, Example.row 2 Example.third_processed);
    (1%N, Example.row 1 Example.third_processed) ].


(** An embedding whose first component, the binary64 value nearest to
    0.1, is no single-precision value, and the vector the column holds
    for it. *)
Definition tenth : vector := 0x1.999999999999ap-4%float :: repeat F.zero 767.
Definition tenth_stored : vector := 0x1.99999ap-4%float :: repeat F.zero 767.

Definition tenth_processed : gmap N Bill.t :=
  Example.deliver (Example.healthy "Market-001" tenth 100%Z) (Example.job "1" "a1")
    Example.uploads.






End Sample.

(** ** The order on distances *)

Lemma pos_compare_cont_lt_trans a b c :
  Pos.compare_cont Eq a b = Lt → Pos.compare_cont Eq b c = Lt → Pos.compare_cont Eq a c = Lt.
Proof.
  change (Pos.compare_cont Eq a b) with (Pos.compare a b).
  change (Pos.compare_cont Eq b c) with (Pos.compare b c).
  change (Pos.compare_cont Eq a c) with (Pos.compare a c).
  rewrite !Pos.compare_lt_iff. lia.
Qed.

Lemma pos_compare_cont_gt_trans a b c :
  Pos.compare_cont Eq a b = Gt → Pos.compare_cont Eq b c = Gt → Pos.compare_cont Eq a c = Gt.
Proof.
  change (Pos.compare_cont Eq a b) with (Pos.compare a b).
  change (Pos.compare_cont Eq b c) with (Pos.compare b c).
  change (Pos.compare_cont Eq a c) with (Pos.compare a c).
  rewrite !Pos.compare_gt_iff. lia.
Qed.

Lemma SFltb_trans x y z : SFltb x y = true → SFltb y z = true → SFltb x z = true.
Proof.
  unfold SFltb.
  destruct x as [sx|sx| |sx mx ex], y as [sy|sy| |sy my ey], z as [sz|sz| |sz mz ez];
    simpl; try discriminate; try reflexivity;
    repeat match goal with s : bool |- _ => destruct s end;
    simpl; try discriminate; try reflexivity.
  - destruct (Z.compare_spec ex ey), (Z.compare_spec ey ez), (Z.compare_spec ex ez);
      subst; try discriminate; try reflexivity; try lia; intros Hxy Hyz.
    destruct (Pos.compare_cont Eq mx my) eqn:E1; try discriminate.
    destruct (Pos.compare_cont Eq my mz) eqn:E2; try discriminate.
    now rewrite (pos_compare_cont_gt_trans _ _ _ E1 E2).
  - destruct (Z.compare_spec ex ey), (Z.compare_spec ey ez), (Z.compare_spec ex ez);
      subst; try discriminate; try reflexivity; try lia; intros Hxy Hyz.
    destruct (Pos.compare_cont Eq mx my) eqn:E1; try discriminate.
    destruct (Pos.compare_cont Eq my mz) eqn:E2; try discriminate.
    now rewrite (pos_compare_cont_lt_trans _ _ _ E1 E2).
Qed.

Lemma SFltb_irrefl x : SFltb x x = false.
Proof.
  unfold SFltb. destruct x as [s|s| |s m e]; simpl; try reflexivity.
  - now destruct s.
  - destruct s; rewrite Z.compare_refl;
      change (Pos.compare_cont Eq m m) with (Pos.compare m m);
      now rewrite Pos.compare_refl.
Qed.

Lemma pg_lt_irrefl x : F.pg_lt x x = false.
Proof.
  unfold F.pg_lt. destruct (is_nan x); [reflexivity|].
  rewrite FloatAxioms.ltb_spec. apply SFltb_irrefl.
Qed.

Lemma pg_lt_trans x y z : F.pg_lt x y = true → F.pg_lt y z = true → F.pg_lt x z = true.
Proof.
  unfold F.pg_lt.
  destruct (is_nan x); [discriminate|].
  destruct (is_nan y); [discriminate|].
  destruct (is_nan z); [reflexivity|].
  rewrite !FloatAxioms.ltb_spec. apply SFltb_trans.
Qed.

Lemma SFltb_cotrans x y z :
  y ≠ S754_nan → SFltb x z = true → SFltb x y = true ∨ SFltb y z = true.
Proof.
  unfold SFltb. intros Hy.
  destruct x as [sx|sx| |sx mx ex], y as [sy|sy| |sy my ey], z as [sz|sz| |sz mz ez];
    simpl; try discriminate; try congruence; auto;
    repeat match goal with s : bool |- _ => destruct s end;
    simpl; try discriminate; auto;
    repeat match goal with
      | |- context [Pos.compare_cont Eq ?a ?b] =>
          change (Pos.compare_cont Eq a b) with (Pos.compare a b)
      end;
    destruct (Z.compare_spec ex ey), (Z.compare_spec ey ez), (Z.compare_spec ex ez);
    subst; simpl; try discriminate; auto; try lia;
    destruct (Pos.compare_spec mx my), (Pos.compare_spec my mz), (Pos.compare_spec mx mz);
    subst; simpl; try discriminate; auto; try lia.
Qed.

Lemma is_nan_false x : is_nan x = false → Prim2SF x ≠ S754_nan.
Proof.
  unfold is_nan. intros Hx Hnan. apply negb_false_iff in Hx.
  rewrite FloatAxioms.eqb_spec, Hnan in Hx. discriminate.
Qed.

(** [pg_lt] is a strict weak order: a value between two others is on one
    side of at least one of them. *)
Lemma pg_lt_cotrans x y z : F.pg_lt x z = true → F.pg_lt x y = true ∨ F.pg_lt y z = true.
Proof.
  unfold F.pg_lt.
  destruct (is_nan x) eqn:Hx; [discriminate|].
  destruct (is_nan y) eqn:Hy; [auto|].
  destruct (is_nan z) eqn:Hz; [auto|].
  rewrite !FloatAxioms.ltb_spec. apply SFltb_cotrans. by apply is_nan_false.
Qed.

(** A NaN distance gives a NaN similarity, which is not [>=] the threshold. *)
Lemma SFeqb_self_false x : SFeqb x x = false → x = S754_nan.
Proof.
  unfold SFeqb. destruct x as [s|s| |s m e]; simpl; try reflexivity.
  - discriminate.
  - now destruct s.
  - destruct s; rewrite Z.compare_refl;
      change (Pos.compare_cont Eq m m) with (Pos.compare m m);
      now rewrite Pos.compare_refl.
Qed.

Lemma nan_similarity_below_threshold d :
  is_nan d = true → F.ge (PrimFloat.sub F.one d) F.threshold = false.
Proof.
  unfold is_nan, F.ge. intros Hnan.
  apply negb_true_iff in Hnan. rewrite FloatAxioms.eqb_spec in Hnan.
  apply SFeqb_self_false in Hnan.
  rewrite FloatAxioms.leb_spec, FloatAxioms.sub_spec, Hnan.
  reflexivity.
Qed.

(** ** The duplicate detector *)

Section Detector.

Context {lib : Library}.

Lemma is_candidate_true company_id b :
  is_candidate company_id b = true ↔
  Bill.company_id b = company_id ∧ Bill.status b = "completed"
  ∧ Bill.is_duplicate b = false ∧ is_Some (Bill.visual_fingerprint b).
Proof.
  unfold is_candidate.
  rewrite !andb_true_iff, N.eqb_eq, String.eqb_eq, negb_true_iff, bool_decide_eq_true.
  tauto.
Qed.

(** The rows the query ranks are exactly the candidates. *)
Lemma elem_of_select_rows rows company_id embedding id distance :
  (id, distance) ∈ select_rows rows company_id embedding
  ↔ candidate rows company_id embedding id distance.
Proof.
  unfold select_rows, candidate. rewrite list_elem_of_omap. split.
  - intros [[id' b] [Hin Hsel]]. apply elem_of_map_to_list in Hin.
    unfold select_row in Hsel; simpl in Hsel.
    destruct (is_candidate company_id b) eqn:Hc; [|discriminate].
    destruct (Bill.visual_fingerprint b) as [fp|] eqn:Hfp; [|discriminate].
    injection Hsel as -> <-.
    apply is_candidate_true in Hc as (Hco & Hst & Hdu & _).
    exists b, fp. by repeat split.
  - intros (b & fp & Hrow & Hco & Hst & Hdu & Hfp & ->).
    exists (id, b). split; [by apply elem_of_map_to_list|].
    unfold select_row; simpl.
    assert (is_candidate company_id b = true) as ->.
    { apply is_candidate_true. rewrite Hfp. eauto. }
    by rewrite Hfp.
Qed.

(** The loop of [first_by_distance] returns one of the rows it was given,
    and no row sorts before it. *)
Lemma first_by_distance_spec rest : ∀ best,
  first_by_distance best rest ∈ best :: rest
  ∧ ∀ r, r ∈ best :: rest → F.pg_lt r.2 (first_by_distance best rest).2 = false.
Proof.
  induction rest as [|r0 rest IH]; intros best; simpl.
  - split; [apply list_elem_of_here|].
    intros r Hr. apply list_elem_of_singleton in Hr as ->. apply pg_lt_irrefl.
  - destruct (IH (if F.pg_lt r0.2 best.2 then r0 else best)) as [Hin Hmin].
    set (found := first_by_distance (if F.pg_lt r0.2 best.2 then r0 else best) rest) in *.
    assert (Hrest : ∀ r, r ∈ rest → F.pg_lt r.2 found.2 = false).
    { intros r Hr. by apply Hmin, list_elem_of_further. }
    assert (Hkept : F.pg_lt (if F.pg_lt r0.2 best.2 then r0 else best).2 found.2 = false).
    { apply Hmin, list_elem_of_here. }
    destruct (F.pg_lt r0.2 best.2) eqn:Hlt.
    + split.
      * apply list_elem_of_further, Hin.
      * intros r Hr.
        apply elem_of_cons in Hr as [->|Hr]; [|apply elem_of_cons in Hr as [->|Hr]]; auto.
        destruct (F.pg_lt best.2 found.2) eqn:Hb; [|done].
        rewrite (pg_lt_trans _ _ _ Hlt Hb) in Hkept. done.
    + split.
      * apply elem_of_cons in Hin as [->|Hin]; [apply list_elem_of_here|].
        by do 2 apply list_elem_of_further.
      * intros r Hr.
        apply elem_of_cons in Hr as [->|Hr]; [|apply elem_of_cons in Hr as [->|Hr]]; auto.
        destruct (F.pg_lt r0.2 found.2) eqn:Hb; [|done].
        destruct (pg_lt_cotrans _ best.2 _ Hb); congruence.
Qed.

Lemma first_row_spec (rows : list (uuid * float)) :
  match first_row rows with
  | None => rows = []
  | Some r => r ∈ rows ∧ ∀ r', r' ∈ rows → F.pg_lt r'.2 r.2 = false
  end.
Proof.
  destruct rows as [|r rest]; simpl; [done|]. apply first_by_distance_spec.
Qed.

(** The rows an index scan leaves after the filter are candidates. *)
Lemma elem_of_index_rows rows company_id embedding ids id distance :
  (id, distance) ∈ index_rows rows company_id embedding ids
  ↔ id ∈ ids ∧ candidate rows company_id embedding id distance.
Proof.
  unfold index_rows. rewrite list_elem_of_omap, <- elem_of_select_rows.
  unfold select_rows. rewrite list_elem_of_omap. split.
  - intros (id' & Hin & Hsel). destruct (rows !! id') as [b|] eqn:Hrow; [|discriminate].
    simpl in Hsel. assert (id' = id) as ->.
    { unfold select_row in Hsel. simpl in Hsel.
      destruct (is_candidate _ _), (Bill.visual_fingerprint b); congruence. }
    split; [done|]. exists (id, b). split; [by apply elem_of_map_to_list|done].
  - intros (Hin & [id' b] & Hrow & Hsel). apply elem_of_map_to_list in Hrow.
    assert (id' = id) as ->.
    { unfold select_row in Hsel. simpl in Hsel.
      destruct (is_candidate _ _), (Bill.visual_fingerprint b); congruence. }
    exists id. split; [done|]. by rewrite Hrow.
Qed.

(** Whatever the plan, the row the query returns is a candidate. *)
Lemma query_first_spec env rows company_id embedding :
  match query_first env rows company_id embedding with
  | Some r => r ∈ select_rows rows company_id embedding
  | None => True
  end.
Proof.
  unfold query_first. destruct (index_scan env) as [ids|].
  - destruct (head _) as [[id distance]|] eqn:Hhead; [|done].
    apply head_Some_elem_of, elem_of_index_rows in Hhead as [_ Hc].
    by apply elem_of_select_rows.
  - pose proof (first_row_spec (select_rows rows company_id embedding)) as Hfirst.
    destruct (first_row _); [apply Hfirst|done].
Qed.



(** What [_check_duplicate] answers for the row the query returned. *)
Lemma check_duplicate_unfold env rows company_id embedding :
  execute_search env = None →
  _check_duplicate env rows company_id embedding =
    Ok match query_first env rows company_id embedding with
       | Some (id, distance) =>
           if F.ge (PrimFloat.sub F.one distance) F.threshold
           then {| is_duplicate := true; duplicate_id := Some id;
                   similarity := PrimFloat.sub F.one distance |}
           else not_duplicate
       | None => not_duplicate
       end.
Proof.
  intros Hrun. unfold _check_duplicate. rewrite Hrun.
  destruct (query_first _ _ _ _) as [[id distance]|]; [|done].
  by destruct (F.ge _ _).
Qed.

(** C1. A search for duplicates in tenant [company_id] ranks only rows of
    that tenant, and the row it returns as the duplicate belongs to that
    tenant. *)
Theorem duplicate_search_stays_in_tenant env rows company_id embedding :
  execute_search env = None →
  ∃ info,
    _check_duplicate env rows company_id embedding = Ok info
    ∧ (∀ id distance, (id, distance) ∈ select_rows rows company_id embedding →
         ∃ b, rows !! id = Some b ∧ Bill.company_id b = company_id)
    ∧ (∀ id, duplicate_id info = Some id →
         ∃ b, rows !! id = Some b ∧ Bill.company_id b = company_id).
Proof.
  intros Hrun. rewrite (check_duplicate_unfold _ _ _ _ Hrun).
  eexists; split; [reflexivity|].
  assert (Hranked : ∀ id distance, (id, distance) ∈ select_rows rows company_id embedding →
            ∃ b, rows !! id = Some b ∧ Bill.company_id b = company_id).
  { intros id distance Hin. apply elem_of_select_rows in Hin as (b & fp & Hrow & Hco & _).
    eauto. }
  split; [exact Hranked|].
  intros id. pose proof (query_first_spec env rows company_id embedding) as Hin.
  destruct (query_first _ _ _ _) as [[id' distance]|]; [|discriminate].
  destruct (F.ge _ _); simpl; [|discriminate].
  intros [= <-]. eauto.
Qed.


(** C6. Given the all-zero vector of dimension 768, and the convention
    that the similarity between the zero vector and a non-zero fingerprint
    is 0, the detector never reports a duplicate of a row with a non-zero
    fingerprint: it answers "not a duplicate", or the row it matched has
    an all-zero fingerprint. *)
Theorem zero_vector_matches_no_nonzero_candidate env rows company_id :
  (∀ fingerprint, all_zero fingerprint = false →
     PrimFloat.sub F.one (cosine_distance fingerprint zero_vector) = F.zero) →
  execute_search env = None →
  ∃ info,
    _check_duplicate env rows company_id zero_vector = Ok info
    ∧ (info = not_duplicate
       ∨ ∃ id b fingerprint,
           duplicate_id info = Some id ∧ rows !! id = Some b
           ∧ Bill.visual_fingerprint b = Some fingerprint
           ∧ all_zero fingerprint = true).
Proof.
  intros Hconv Hrun. rewrite (check_duplicate_unfold _ _ _ _ Hrun).
  eexists; split; [reflexivity|].
  pose proof (query_first_spec env rows company_id zero_vector) as Hin.
  destruct (query_first _ _ _ _) as [[id distance]|]; [|by left].
  apply elem_of_select_rows in Hin as (b & fp & Hrow & _ & _ & _ & Hfp & ->).
  destruct (all_zero fp) eqn:Hz.
  - destruct (F.ge _ _); [|by left].
    right. exists id, b, fp. by repeat split.
  - left. by rewrite (Hconv fp Hz).
Qed.

(** What the binary64 arithmetic gives without any convention: a distance
    that is NaN, as the one from a vector of norm 0, never makes a
    duplicate. *)
Lemma undefined_distance_never_matches env rows company_id embedding :
  (∀ fingerprint, is_nan (cosine_distance fingerprint embedding) = true) →
  execute_search env = None →
  _check_duplicate env rows company_id embedding = Ok not_duplicate.
Proof.
  intros Hnan Hrun. rewrite (check_duplicate_unfold _ _ _ _ Hrun).
  pose proof (query_first_spec env rows company_id embedding) as Hin.
  destruct (query_first _ _ _ _) as [[id distance]|]; [|done].
  apply elem_of_select_rows in Hin as (b & fp & _ & _ & _ & _ & _ & ->).
  by rewrite (nan_similarity_below_threshold _ (Hnan fp)).
Qed.

End Detector.

(** ** The pipeline *)

Lemma set_status_set_status s1 s2 b :
  Bill.set_status s2 (Bill.set_status s1 b) = Bill.set_status s2 b.
Proof. by destruct b. Qed.

Lemma set_bill_date_same b : Bill.set_bill_date (Bill.bill_date b) b = b.
Proof. by destruct b. Qed.

Section Pipeline.

Context {lib : Library}.

Ltac run :=
  unfold try_except, pipeline, on_exception, mark_duplicate, save_extracted,
    bind, assign, commit, call, raise, ret, _download_from_gcs; simpl.

Lemma get_bill_Some rows id T b :
  _get_bill rows id T = Some b ↔ rows !! id = Some b ∧ Bill.company_id b = T.
Proof.
  unfold _get_bill. destruct (rows !! id) as [b0|].
  - destruct (N.eqb_spec (Bill.company_id b0) T) as [Heq|Hne]; split.
    + intros [= ->]. done.
    + intros [[= ->] _]. done.
    + discriminate.
    + intros [[= ->] Heq]. done.
  - split; [discriminate|]. intros [[=] _].
Qed.

Lemma process_found env msg rows id T b :
  UUID (BillUploadMessage.bill_id msg) = Some id →
  UUID (BillUploadMessage.company_id msg) = Some T →
  execute_get_bill env = None →
  _get_bill rows id T = Some b →
  process_bill_message env msg rows =
    let '(s, r) := try_except (pipeline env msg id T) (on_exception env id)
                     {| db := rows; bill := b |} in (db s, r).
Proof. intros H1 H2 H3 H4. unfold process_bill_message. by rewrite H1, H2, H3, H4. Qed.

(** The guarded block either commits nothing or leaves the row of the job
    rewritten in one of the four ways above; no other row changes. *)
Lemma attempt_cases env msg id T rows b s r :
  rows !! id = Some b →
  try_except (pipeline env msg id T) (on_exception env id) {| db := rows; bill := b |} = (s, r) →
  (is_Some (commit_processing env) ∧ is_Some (commit_failed env) ∧ db s = rows)
  ∨ ∃ b', db s = <[id := b']> rows ∧ rewritten b b'.
Proof.
  intros Hrow. run.
  destruct (commit_processing env); simpl.
  { rewrite Hrow; simpl. destruct (commit_failed env); simpl; intros [= <- <-]; simpl;
      [left; eauto|].
    right. eexists; split; [done|]. constructor. }
  assert (Hfailed : ∀ e, rewritten b
            (Bill.set_error_message (Some (exn_str e))
               (Bill.set_status "failed" (Bill.set_status "processing" b)))).
  { intros e. rewrite set_status_set_status. constructor. }
  destruct (download_as_bytes env _) as [image|e]; simpl.
  2:{ destruct (commit_failed env); simpl; intros [= <- <-]; simpl; right;
      rewrite ?insert_insert_eq; eexists; (split; [done|]); [constructor|apply Hfailed]. }
  destruct (_check_duplicate _ _ _ _) as [info|e]; simpl.
  2:{ destruct (commit_failed env); simpl; intros [= <- <-]; simpl; right;
      rewrite ?insert_insert_eq; eexists; (split; [done|]); [constructor|apply Hfailed]. }
  destruct (is_duplicate info); simpl.
  - destruct (commit_terminal env); simpl.
    + rewrite lookup_insert_eq; simpl.
      destruct (commit_failed env); simpl; intros [= <- <-]; simpl; right;
        rewrite ?insert_insert_eq; eexists; (split; [done|]); [constructor|apply Hfailed].
    + intros [= <- <-]; simpl. right. rewrite insert_insert_eq.
      eexists; split; [done|]. rewrite set_status_set_status. constructor.
  - destruct (truthy _); simpl.
    + destruct (commit_terminal env); simpl.
      * rewrite lookup_insert_eq; simpl.
        destruct (commit_failed env); simpl; intros [= <- <-]; simpl; right;
          rewrite ?insert_insert_eq; eexists; (split; [done|]); [constructor|apply Hfailed].
      * intros [= <- <-]; simpl. right. rewrite insert_insert_eq.
        eexists; split; [done|]. rewrite set_status_set_status. constructor.
    + destruct (commit_terminal env); simpl.
      * rewrite lookup_insert_eq; simpl.
        destruct (commit_failed env); simpl; intros [= <- <-]; simpl; right;
          rewrite ?insert_insert_eq; eexists; (split; [done|]); [constructor|apply Hfailed].
      * intros [= <- <-]; simpl. right. rewrite insert_insert_eq.
        eexists; split; [done|]. rewrite set_status_set_status.
        rewrite <- (set_bill_date_same
          (Bill.set_bill_number _ (Bill.set_vendor_tax_number _
             (Bill.set_vendor_name _ (Bill.set_status "completed" b))))) at 1.
        constructor.
Qed.

(** A run of [process_bill_message] changes at most the row its job names. *)
Lemma process_cases env msg rows rows' r :
  process_bill_message env msg rows = (rows', r) →
  rows' = rows
  ∨ ∃ id T b b',
      UUID (BillUploadMessage.bill_id msg) = Some id
      ∧ UUID (BillUploadMessage.company_id msg) = Some T
      ∧ rows !! id = Some b ∧ Bill.company_id b = T
      ∧ rows' = <[id := b']> rows ∧ rewritten b b'.
Proof.
  unfold process_bill_message.
  destruct (UUID (BillUploadMessage.bill_id msg)) as [id|]; [|intros [= <- _]; by left].
  destruct (UUID (BillUploadMessage.company_id msg)) as [T|]; [|intros [= <- _]; by left].
  destruct (execute_get_bill env); [intros [= <- _]; by left|].
  destruct (_get_bill rows id T) as [b|] eqn:Hget; [|intros [= <- _]; by left].
  apply get_bill_Some in Hget as [Hrow HT].
  destruct (try_except _ _ _) as [s r0] eqn:Hrun. intros [= <- <-].
  destruct (attempt_cases _ _ _ _ _ _ _ _ Hrow Hrun) as [(_ & _ & ->)|(b' & -> & Hb')];
    [by left|].
  right. exists id, T, b, b'. by repeat split.
Qed.

(** The fallback of [generate_embedding]: the zero vector of dimension
    768, whenever the embedding call raises or returns no embedding. *)
Lemma generate_embedding_fallback env text :
  (∀ embeddings, embed_content env text ≠ Ok (Some embeddings) ∨ embeddings = []) →
  generate_embedding env text = zero_vector ∧ length zero_vector = 768.
Proof.
  intros Hnone. split; [|reflexivity]. unfold generate_embedding.
  destruct (embed_content env text) as [[[|embedding rest]|]|e]; try reflexivity.
  destruct (Hnone (embedding :: rest)) as [Hne|Heq]; [by destruct Hne|discriminate].
Qed.

(** C8. When no record with the job's identifier exists under the job's
    tenant, processing returns without raising, the table is unchanged,
    and the pull adapter acknowledges the message. *)
Theorem missing_record_is_dropped env message msg rows id T :
  parse_message message = Some msg →
  UUID (BillUploadMessage.bill_id msg) = Some id →
  UUID (BillUploadMessage.company_id msg) = Some T →
  execute_get_bill env = None →
  (∀ b, rows !! id = Some b → Bill.company_id b ≠ T) →
  process_bill_message env msg rows = (rows, Ok tt)
  ∧ message_callback env message rows = (rows, Ack).
Proof.
  intros Hparse Hid HT Hrun Hmissing.
  assert (Hget : _get_bill rows id T = None).
  { destruct (_get_bill rows id T) as [b|] eqn:Hget; [|done].
    apply get_bill_Some in Hget as [Hrow Hco]. by destruct (Hmissing b Hrow). }
  assert (Hproc : process_bill_message env msg rows = (rows, Ok tt)).
  { unfold process_bill_message. by rewrite Hid, HT, Hrun, Hget. }
  split; [done|]. unfold message_callback. by rewrite Hparse, Hproc.
Qed.

(** C4, as the code has it. A message whose payload does not decode into
    a [BillUploadMessage] is negatively acknowledged by the pull adapter
    [message_callback], so the broker redelivers it; the push adapter
    [pubsub_push] answers 200 to such a payload, which acknowledges it.
    Neither changes the table. *)
Theorem undecodable_message_delivery env rows :
  (∀ message, parse_message message = None →
     message_callback env message rows = (rows, Nack))
  ∧ (∀ body, match body with Data data => BillUploadMessage_init data = None | _ => True end →
       ∃ answer, pubsub_push env body rows = (rows, answer) ∧ push_delivery answer = Ack).
Proof.
  split.
  - intros message Hparse. unfold message_callback. by rewrite Hparse.
  - intros body Hbody. unfold pubsub_push.
    destruct body as [| | |data]; try (eexists; split; [reflexivity|done]).
    rewrite Hbody. eexists; split; [reflexivity|done].
Qed.

(** What the handler does. An exception [e] raised in the guarded block
    after the record was loaded is caught once; the handler assigns
    status failed and [str(e)] as the error detail and commits. When that
    commit succeeds the failed row is in the table and [e] is raised again
    to the adapter. When that commit raises [e'], it is [e'] that reaches
    the adapter, and the table is as it was when [e] was raised. *)
Theorem failure_after_load env msg rows id T b s e :
  UUID (BillUploadMessage.bill_id msg) = Some id →
  UUID (BillUploadMessage.company_id msg) = Some T →
  execute_get_bill env = None →
  _get_bill rows id T = Some b →
  pipeline env msg id T {| db := rows; bill := b |} = (s, Raise e) →
  match commit_failed env with
  | None =>
      ∃ b', process_bill_message env msg rows = (<[id := b']> (db s), Raise e)
            ∧ b' = Bill.set_error_message (Some (exn_str e)) (Bill.set_status "failed" (bill s))
            ∧ Bill.status b' = "failed"
            ∧ Bill.error_message b' = Some (exn_str e)
  | Some e' => process_bill_message env msg rows = (db s, Raise e')
  end.
Proof.
  intros Hid HT Hrun Hget Hraise.
  rewrite (process_found _ _ _ _ _ _ Hid HT Hrun Hget).
  unfold try_except. rewrite Hraise.
  unfold on_exception, bind, assign, commit, raise; simpl.
  destruct (commit_failed env); simpl; [done|].
  eexists; split; [reflexivity|]. split; [done|].
  by destruct (bill s).
Qed.

(** Row by row: a run leaves a row as it was or rewrites it by one of the
    four transitions. *)
Lemma row_after_run env msg rows rows' r id b b' :
  process_bill_message env msg rows = (rows', r) →
  rows !! id = Some b →
  rows' !! id = Some b' →
  b' = b ∨ rewritten b b'.
Proof.
  intros Hproc Hrow Hrow'.
  destruct (process_cases _ _ _ _ _ Hproc)
    as [->|(id0 & T & b0 & b0' & _ & _ & Hrow0 & _ & -> & Hrw)].
  - left. congruence.
  - destruct (decide (id0 = id)) as [Heq|Hne]; [subst id0|].
    + rewrite lookup_insert_eq in Hrow'. injection Hrow' as ->.
      assert (Some b0 = Some b) as [= ->] by (etrans; [symmetry; exact Hrow0|exact Hrow]).
      by right.
    + rewrite lookup_insert_ne in Hrow' by done. left. congruence.
Qed.

(** C10. A row that a run leaves with status duplicate differs from what
    it was before the run in at most [status], [is_duplicate],
    [duplicate_of_id], [similarity_score] and [processed_at]: the
    extracted columns and the fingerprint are as they were. *)
Theorem duplicate_outcome_frame env msg rows rows' r id b b' :
  process_bill_message env msg rows = (rows', r) →
  rows !! id = Some b →
  rows' !! id = Some b' →
  Bill.status b' = "duplicate" →
  b' = Bill.set_processed_at (Bill.processed_at b')
         (Bill.set_similarity_score (Bill.similarity_score b')
            (Bill.set_duplicate_of_id (Bill.duplicate_of_id b')
               (Bill.set_is_duplicate (Bill.is_duplicate b')
                  (Bill.set_status "duplicate" b))))
  ∧ Bill.vendor_name b' = Bill.vendor_name b
  ∧ Bill.vendor_tax_number b' = Bill.vendor_tax_number b
  ∧ Bill.bill_number b' = Bill.bill_number b
  ∧ Bill.bill_date b' = Bill.bill_date b
  ∧ Bill.total_amount b' = Bill.total_amount b
  ∧ Bill.currency b' = Bill.currency b
  ∧ Bill.line_items b' = Bill.line_items b
  ∧ Bill.raw_extraction b' = Bill.raw_extraction b
  ∧ Bill.visual_fingerprint b' = Bill.visual_fingerprint b.
Proof.
  intros Hproc Hrow Hrow' Hst.
  destruct (row_after_run _ _ _ _ _ _ _ _ Hproc Hrow Hrow') as [->|Hrw].
  - destruct b; simpl in *. subst. by repeat split.
  - destruct Hrw; destruct b; simpl in *; try discriminate.
    by repeat split.
Qed.

(** C9, as the code has it. The fingerprint is written only together with
    status completed. The duplicate outcome leaves the fingerprint as it
    was, so a row that had none before the run has none after it; and a
    row with status duplicate is no candidate of any search. *)
Theorem fingerprint_written_only_when_completed env msg rows rows' r id b b' :
  process_bill_message env msg rows = (rows', r) →
  rows !! id = Some b →
  rows' !! id = Some b' →
  (Bill.visual_fingerprint b' ≠ Bill.visual_fingerprint b → Bill.status b' = "completed")
  ∧ (Bill.status b' = "duplicate" →
       Bill.visual_fingerprint b' = Bill.visual_fingerprint b
       ∧ (Bill.visual_fingerprint b = None → Bill.visual_fingerprint b' = None)
       ∧ ∀ company_id, is_candidate company_id b' = false).
Proof.
  intros Hproc Hrow Hrow'.
  destruct (row_after_run _ _ _ _ _ _ _ _ Hproc Hrow Hrow') as [->|Hrw].
  - split; [by intros []|]. intros Hst. split; [done|]. split; [done|].
    intros company_id. unfold is_candidate. rewrite Hst. simpl.
    by rewrite andb_false_r.
  - split.
    + destruct Hrw; destruct b; simpl; try done; by intros [].
    + intros Hst. split; [|split].
      * destruct Hrw; destruct b; simpl in *; try done.
      * destruct Hrw; destruct b; simpl in *; try done.
      * intros company_id. unfold is_candidate. rewrite Hst. simpl.
        by rewrite andb_false_r.
Qed.

(** C3, as the code has it. The pipeline never reads the status of the
    record it loads. When the record is found under the job's tenant, a
    delivery runs the pipeline again whatever that status is, terminal or
    not: the result is the same as for any other status, and the row is
    rewritten by one of the four transitions. *)
Theorem redelivery_ignores_status env msg rows id T b status :
  UUID (BillUploadMessage.bill_id msg) = Some id →
  UUID (BillUploadMessage.company_id msg) = Some T →
  execute_get_bill env = None →
  rows !! id = Some b →
  Bill.company_id b = T →
  commit_processing env = None ∨ commit_failed env = None →
  process_bill_message env msg (<[id := Bill.set_status status b]> rows)
  = process_bill_message env msg rows
  ∧ ∃ b', (process_bill_message env msg rows).1 = <[id := b']> rows ∧ rewritten b b'.
Proof.
  intros Hid HT Hrun Hrow Hco Hcommit.
  assert (Hget : _get_bill rows id T = Some b) by by apply get_bill_Some.
  assert (Hget' : _get_bill (<[id := Bill.set_status status b]> rows) id T
                  = Some (Bill.set_status status b)).
  { apply get_bill_Some. rewrite lookup_insert_eq. split; [done|]. by destruct b. }
  rewrite (process_found _ _ _ _ _ _ Hid HT Hrun Hget).
  rewrite (process_found _ _ _ _ _ _ Hid HT Hrun Hget').
  split.
  - run. destruct (commit_processing env) as [e|] eqn:Hfirst; simpl.
    + destruct Hcommit as [?|Hlast]; [done|].
      rewrite Hlast, Hrow, lookup_insert_eq; simpl.
      by rewrite insert_insert_eq, set_status_set_status.
    + by rewrite insert_insert_eq, set_status_set_status.
  - destruct (try_except _ _ _) as [s r] eqn:Hattempt. simpl.
    destruct (attempt_cases _ _ _ _ _ _ _ _ Hrow Hattempt) as [([e1 H1] & [e2 H2] & _)|Hb'];
      [|done].
    destruct Hcommit; congruence.
Qed.

(** C5, as the code has it. [extract_from_image] returns the sentinel
    record whenever its [try] block raises. The pipeline then carries on
    with the sentinel as with any other extraction: when no other step
    raises, the record is committed with status completed and the
    sentinel's values if the duplicate search finds no match, and with
    status duplicate if it finds one; in neither case is the status
    failed. *)
Theorem extraction_failure_degrades env msg rows id T b image e :
  UUID (BillUploadMessage.bill_id msg) = Some id →
  UUID (BillUploadMessage.company_id msg) = Some T →
  execute_get_bill env = None →
  _get_bill rows id T = Some b →
  commit_processing env = None →
  download_as_bytes env (BillUploadMessage.storage_path msg) = Ok image →
  extract_from_image_try env image (BillUploadMessage.mime_type msg) = Raise e →
  execute_search env = None →
  commit_terminal env = None →
  extract_from_image env image (BillUploadMessage.mime_type msg) = extraction_failed
  ∧ ExtractedBillData.vendor_name
      (extract_from_image env image (BillUploadMessage.mime_type msg)) = "Extraction Failed"
  ∧ ExtractedBillData.total_amount
      (extract_from_image env image (BillUploadMessage.mime_type msg)) = F.zero
  ∧ ExtractedBillData.confidence_score
      (extract_from_image env image (BillUploadMessage.mime_type msg)) = F.zero
  ∧ ExtractedBillData.line_items
      (extract_from_image env image (BillUploadMessage.mime_type msg)) = []
  ∧ ∃ info b',
      _check_duplicate env (<[id := Bill.set_status "processing" b]> rows) T
        (generate_embedding env (generate_text_for_embedding extraction_failed)) = Ok info
      ∧ process_bill_message env msg rows = (<[id := b']> rows, Ok tt)
      ∧ Bill.status b' = (if is_duplicate info then "duplicate" else "completed")
      ∧ (is_duplicate info = false →
           Bill.vendor_name b' = Some "Extraction Failed"
           ∧ Bill.total_amount b' = Some F.zero
           ∧ Bill.line_items b' = Some []
           ∧ Bill.raw_extraction b' = Some extraction_failed).
Proof.
  intros Hid HT Hrun Hget Hfirst Hblob Htry Hsearch Hlast.
  assert (Hex : extract_from_image env image (BillUploadMessage.mime_type msg)
                = extraction_failed).
  { unfold extract_from_image. by rewrite Htry. }
  rewrite Hex. repeat (split; [reflexivity|]).
  rewrite (process_found _ _ _ _ _ _ Hid HT Hrun Hget).
  destruct (_check_duplicate env (<[id := Bill.set_status "processing" b]> rows) T
              (generate_embedding env (generate_text_for_embedding extraction_failed)))
    as [info|e0] eqn:Hinfo.
  2:{ rewrite check_duplicate_unfold in Hinfo by done. discriminate. }
  exists info. run. rewrite Hfirst; simpl. rewrite Hblob; simpl.
  rewrite Hex, Hinfo; simpl.
  destruct (is_duplicate info); simpl; rewrite Hlast; simpl; rewrite insert_insert_eq;
    eexists; (split; [reflexivity|]); (split; [reflexivity|]);
    destruct b; simpl; by repeat split.
Qed.

End Pipeline.

(** ** The properties on sample deliveries *)

Import Example.

(** C1 on the sample table: tenant Y searches with the fingerprint that a
    row of tenant X and a row of tenant Y both carry. *)
Lemma duplicate_search_stays_in_tenant_witness :
  ∃ info,
    _check_duplicate (lib := lib64) calm two_tenants tenant_y e1 = Ok info
    ∧ (∀ id distance,
         (id, distance) ∈ select_rows (lib := lib64) two_tenants tenant_y e1 →
         ∃ b, two_tenants !! id = Some b ∧ Bill.company_id b = tenant_y)
    ∧ (∀ id, duplicate_id info = Some id →
         ∃ b, two_tenants !! id = Some b ∧ Bill.company_id b = tenant_y).
Proof.
  apply (duplicate_search_stays_in_tenant (lib := lib64) calm two_tenants tenant_y e1).
  reflexivity.
Defined.



(** C6 on the sample table, with the distance of the convention. *)
Lemma zero_vector_matches_no_nonzero_candidate_witness :
  ∃ info,
    _check_duplicate (lib := lib_conv) calm two_tenants tenant_x zero_vector = Ok info
    ∧ (info = not_duplicate
       ∨ ∃ id b fingerprint,
           duplicate_id info = Some id ∧ two_tenants !! id = Some b
           ∧ Bill.visual_fingerprint b = Some fingerprint
           ∧ all_zero fingerprint = true).
Proof.
  apply (zero_vector_matches_no_nonzero_candidate (lib := lib_conv) calm two_tenants tenant_x).
  - intros fingerprint _. simpl. unfold cosine_distance_conv.
    change (all_zero zero_vector) with true. reflexivity.
  - reflexivity.
Defined.

(** C8 on the sample table: bill 3 exists, but under tenant Y, and the
    job names tenant X. *)
Lemma missing_record_is_dropped_witness :
  process_bill_message (lib := lib64) calm (job "3" "a1") two_tenants = (two_tenants, Ok tt)
  ∧ message_callback (lib := lib64) calm (Decoded (job_json "3" "a1")) two_tenants
    = (two_tenants, Ack).
Proof.
  apply (missing_record_is_dropped (lib := lib64) calm (Decoded (job_json "3" "a1"))
           (job "3" "a1") two_tenants 3%N tenant_x); try reflexivity.
  intros b Hb. vm_compute in Hb. injection Hb as <-. vm_compute. discriminate.
Defined.

(** C10 on scenario A: the copy ends as a duplicate of bill 1, with the
    extracted columns and the fingerprint as they were before the run. *)
Lemma duplicate_outcome_frame_witness :
  Bill.status (row 2 copy_processed) = "duplicate"
  ∧ Bill.duplicate_of_id (row 2 copy_processed) = Some 1%N
  ∧ Bill.vendor_name (row 2 copy_processed) = Bill.vendor_name (row 2 first_processed)
  ∧ Bill.raw_extraction (row 2 copy_processed) = Bill.raw_extraction (row 2 first_processed)
  ∧ Bill.visual_fingerprint (row 2 copy_processed)
    = Bill.visual_fingerprint (row 2 first_processed).
Proof.
  destruct (duplicate_outcome_frame (lib := lib64)
              (healthy "Market-001" e1 200%Z) (job "2" "a1")
              first_processed copy_processed (Ok tt) 2%N
              (row 2 first_processed) (row 2 copy_processed))
    as (_ & Hvendor & _ & _ & _ & _ & _ & _ & Hraw & Hfingerprint);
    try (vm_compute; reflexivity).
  repeat split; try assumption; vm_compute; reflexivity.
Defined.

(** C9, as the code has it, on scenario A: the copy had no fingerprint
    before the run that made it a duplicate, and has none after it. *)
Lemma fingerprint_written_only_when_completed_witness :
  Bill.visual_fingerprint (row 2 first_processed) = None
  ∧ Bill.status (row 2 copy_processed) = "duplicate"
  ∧ Bill.visual_fingerprint (row 2 copy_processed) = None
  ∧ ∀ company_id, is_candidate company_id (row 2 copy_processed) = false.
Proof.
  destruct (fingerprint_written_only_when_completed (lib := lib64)
              (healthy "Market-001" e1 200%Z) (job "2" "a1")
              first_processed copy_processed (Ok tt) 2%N
              (row 2 first_processed) (row 2 copy_processed))
    as [_ Hduplicate]; try (vm_compute; reflexivity).
  destruct Hduplicate as (_ & Hnone & Hcandidate); [vm_compute; reflexivity|].
  split; [vm_compute; reflexivity|]. split; [vm_compute; reflexivity|].
  split; [apply Hnone; vm_compute; reflexivity|exact Hcandidate].
Defined.

(** C9 as stated fails. Bill 1 was completed during the outage and
    carries the fingerprint [e2]. Its job is delivered again; this time
    the duplicate search matches bill 2. Bill 1 ends with status duplicate
    and still carries its fingerprint. *)
Lemma reprocessed_duplicate_keeps_fingerprint :
  Bill.status (row 1 outage_then_copy) = "completed"
  ∧ process_bill_message (lib := lib64) (healthy "Market-001" e1 300%Z) (job "1" "a1")
      outage_then_copy = (outage_redelivered, Ok tt)
  ∧ Bill.status (row 1 outage_redelivered) = "duplicate"
  ∧ Bill.duplicate_of_id (row 1 outage_redelivered) = Some 2%N
  ∧ Bill.visual_fingerprint (row 1 outage_redelivered) = Some e2.
Proof. repeat split; vm_compute; reflexivity. Qed.

(** C3, as the code has it, on the sample uploads: a delivery for bill 1
    gives the same result whether the row is pending or completed. *)
Lemma redelivery_ignores_status_witness :
  process_bill_message (lib := lib64) calm (job "1" "a1")
    (<[1%N := Bill.set_status "completed" (row 1 uploads)]> uploads)
  = process_bill_message (lib := lib64) calm (job "1" "a1") uploads
  ∧ ∃ b', (process_bill_message (lib := lib64) calm (job "1" "a1") uploads).1
          = <[1%N := b']> uploads
          ∧ rewritten (row 1 uploads) b'.
Proof.
  apply (redelivery_ignores_status (lib := lib64) calm (job "1" "a1") uploads 1%N tenant_x
           (row 1 uploads) "completed"); try reflexivity.
  left. reflexivity.
Defined.

(** C3 as stated fails. A completed bill whose job is delivered again,
    with the same answers from every collaborator, is rewritten: its
    [processed_at] changes. A failed bill whose job is delivered again is
    processed and ends completed. A bill that is a duplicate of bill 1 and
    whose job is delivered again while the AI service answers differently
    ends as a duplicate of bill 3. *)
Lemma redelivery_rewrites_terminal_record :
  (terminal (Bill.status (row 1 first_processed)) = true
   ∧ Bill.processed_at (row 1 first_processed) = Some 100%Z
   ∧ process_bill_message (lib := lib64) (healthy "Market-001" e1 500%Z) (job "1" "a1")
       first_processed = (first_redelivered, Ok tt)
   ∧ Bill.processed_at (row 1 first_redelivered) = Some 500%Z)
  ∧ (terminal (Bill.status (row 1 blob_lost)) = true
     ∧ Bill.status (row 1 blob_lost) = "failed"
     ∧ process_bill_message (lib := lib64) (healthy "Market-001" e1 200%Z) (job "1" "a1")
         blob_lost = (blob_retried, Ok tt)
     ∧ Bill.status (row 1 blob_retried) = "completed")
  ∧ (terminal (Bill.status (row 2 third_processed)) = true
     ∧ Bill.duplicate_of_id (row 2 third_processed) = Some 1%N
     ∧ process_bill_message (lib := lib64) (healthy "Cafe-007" e2 400%Z) (job "2" "a1")
         third_processed = (copy_redelivered, Ok tt)
     ∧ Bill.duplicate_of_id (row 2 copy_redelivered) = Some 3%N).
Proof. repeat split; vm_compute; reflexivity. Qed.

(** C4 as stated fails: the pull adapter negatively acknowledges a
    payload that is not JSON, and one that is JSON but lacks required
    fields. *)
Lemma undecodable_message_is_nacked :
  parse_message Undecodable = None
  ∧ message_callback (lib := lib64) calm Undecodable uploads = (uploads, Nack)
  ∧ parse_message (Decoded incomplete_json) = None
  ∧ message_callback (lib := lib64) calm (Decoded incomplete_json) uploads = (uploads, Nack).
Proof. repeat split; vm_compute; reflexivity. Qed.

(** C5, as the code has it, on scenario C: the first failed extraction of
    the tenant is committed as completed with the sentinel's values. *)
Lemma extraction_failure_degrades_witness :
  extract_from_image (lib := lib64) (extraction_down e2 100%Z) [] "image/jpeg"
  = extraction_failed
  ∧ ∃ info b',
      _check_duplicate (lib := lib64) (extraction_down e2 100%Z)
        (<[1%N := Bill.set_status "processing" (row 1 uploads)]> uploads) tenant_x
        (generate_embedding (extraction_down e2 100%Z)
           (generate_text_for_embedding (lib := lib64) extraction_failed)) = Ok info
      ∧ process_bill_message (lib := lib64) (extraction_down e2 100%Z) (job "1" "a1") uploads
        = (<[1%N := b']> uploads, Ok tt)
      ∧ Bill.status b' = (if is_duplicate info then "duplicate" else "completed")
      ∧ (is_duplicate info = false →
           Bill.vendor_name b' = Some "Extraction Failed"
           ∧ Bill.total_amount b' = Some F.zero
           ∧ Bill.line_items b' = Some []
           ∧ Bill.raw_extraction b' = Some extraction_failed).
Proof.
  destruct (extraction_failure_degrades (lib := lib64) (extraction_down e2 100%Z)
              (job "1" "a1") uploads 1%N tenant_x (row 1 uploads) [] timeout_error)
    as (Hsentinel & _ & _ & _ & _ & Hrun); try reflexivity.
  split; [exact Hsentinel|exact Hrun].
Defined.

(** C5 as stated fails. In scenario C the extraction of bill 2 fails as
    the one of bill 1 did; the sentinel's embedding matches the
    fingerprint stored for bill 1, and bill 2 is committed with status
    duplicate, not completed. *)
Lemma second_failed_extraction_is_duplicate :
  extract_from_image_try (lib := lib64) (extraction_down e2 200%Z) [] "image/jpeg"
  = Raise timeout_error
  ∧ process_bill_message (lib := lib64) (extraction_down e2 200%Z) (job "2" "a1") outage_first
    = (outage_second, Ok tt)
  ∧ Bill.status (row 2 outage_second) = "duplicate"
  ∧ Bill.duplicate_of_id (row 2 outage_second) = Some 1%N
  ∧ Bill.vendor_name (row 1 outage_second) = Some "Extraction Failed".
Proof. repeat split; vm_compute; reflexivity. Qed.

(** The handler on a missing blob: its commit succeeds, the row is failed
    with the message of the exception, and the exception reaches the
    adapter. *)
Lemma failure_after_load_witness :
  ∃ b',
    process_bill_message (lib := lib64) (blob_missing 100%Z) (job "1" "a1") uploads
    = (<[1%N := b']> (<[1%N := Bill.set_status "processing" (row 1 uploads)]> uploads),
       Raise not_found)
    ∧ b' = Bill.set_error_message (Some "404 No such object")
             (Bill.set_status "failed" (Bill.set_status "processing" (row 1 uploads)))
    ∧ Bill.status b' = "failed"
    ∧ Bill.error_message b' = Some "404 No such object".
Proof.
  exact (failure_after_load (lib := lib64) (blob_missing 100%Z) (job "1" "a1") uploads
           1%N tenant_x (row 1 uploads)
           {| db := <[1%N := Bill.set_status "processing" (row 1 uploads)]> uploads;
              bill := Bill.set_status "processing" (row 1 uploads) |}
           not_found eq_refl eq_refl eq_refl eq_refl eq_refl).
Defined.

(** C7. The handler, which is there to mark the record as failed, misses
    the exceptions of a commit. The database rejects the row of the
    terminal commit, which raises [DataError]. The handler assigns status
    failed and commits on the same session without rolling it back, so
    that commit raises [PendingRollbackError]. The row keeps status
    processing without an error detail, and the adapter receives the
    exception of the handler's commit, not the one that was caught. *)
Lemma failed_transition_not_committed :
  (pipeline (lib := lib64) (flush_rejected "Market-001" e1 100%Z) (job "1" "a1") 1%N tenant_x
     {| db := uploads; bill := row 1 uploads |}).2 = Raise data_error
  ∧ (process_bill_message (lib := lib64) (flush_rejected "Market-001" e1 100%Z)
       (job "1" "a1") uploads).2 = Raise pending_rollback
  ∧ Bill.status
      (row 1 (process_bill_message (lib := lib64) (flush_rejected "Market-001" e1 100%Z)
                (job "1" "a1") uploads).1) = "processing"
  ∧ Bill.error_message
      (row 1 (process_bill_message (lib := lib64) (flush_rejected "Market-001" e1 100%Z)
                (job "1" "a1") uploads).1) = None.
Proof. repeat split; vm_compute; reflexivity. Qed.

(** ** What a run leaves behind *)

Section Outcomes.

Context {lib : Library}.

Ltac exec :=
  unfold try_except, pipeline, on_exception, mark_duplicate, save_extracted,
    bind, assign, commit, call, raise, ret, _download_from_gcs; simpl.

(** A run that returns went through every step: both commits succeeded,
    the blob was read, the search answered, and the row of the job is
    what step 5 made of the row set to processing. *)
Lemma attempt_returned env msg id T rows b s :
  try_except (pipeline env msg id T) (on_exception env id) {| db := rows; bill := b |}
  = (s, Ok tt) →
  ∃ image info,
    commit_processing env = None
    ∧ download_as_bytes env (BillUploadMessage.storage_path msg) = Ok image
    ∧ _check_duplicate env (<[id := Bill.set_status "processing" b]> rows) T
        (generate_embedding env
           (generate_text_for_embedding
              (extract_from_image env image (BillUploadMessage.mime_type msg)))) = Ok info
    ∧ commit_terminal env = None
    ∧ db s = <[id := step5 info
                      (extract_from_image env image (BillUploadMessage.mime_type msg))
                      (generate_embedding env
                         (generate_text_for_embedding
                            (extract_from_image env image (BillUploadMessage.mime_type msg))))
                      (utcnow env) (Bill.set_status "processing" b)]> rows.
Proof.
  exec.
  destruct (commit_processing env); simpl.
  { destruct (commit_failed env); simpl; intros [=]. }
  destruct (download_as_bytes env _) as [image|e]; simpl.
  2:{ destruct (commit_failed env); simpl; intros [=]. }
  destruct (_check_duplicate _ _ _ _) as [info|e] eqn:Hinfo; simpl.
  2:{ destruct (commit_failed env); simpl; intros [=]. }
  intros Hrun. exists image, info. split; [done|]. split; [done|]. split; [done|].
  unfold step5; exec.
  destruct (is_duplicate info); simpl in *.
  - destruct (commit_terminal env); simpl in *.
    + destruct (commit_failed env); simpl in *; discriminate.
    + injection Hrun as <-. simpl. by rewrite insert_insert_eq.
  - destruct (truthy _); simpl in *.
    + destruct (commit_terminal env); simpl in *.
      * destruct (commit_failed env); simpl in *; discriminate.
      * injection Hrun as <-. simpl. by rewrite insert_insert_eq.
    + destruct (commit_terminal env); simpl in *.
      * destruct (commit_failed env); simpl in *; discriminate.
      * injection Hrun as <-. simpl. by rewrite insert_insert_eq.
Qed.

Lemma process_returned env msg rows rows' id T b :
  UUID (BillUploadMessage.bill_id msg) = Some id →
  UUID (BillUploadMessage.company_id msg) = Some T →
  _get_bill rows id T = Some b →
  process_bill_message env msg rows = (rows', Ok tt) →
  ∃ image info,
    commit_processing env = None
    ∧ download_as_bytes env (BillUploadMessage.storage_path msg) = Ok image
    ∧ _check_duplicate env (<[id := Bill.set_status "processing" b]> rows) T
        (generate_embedding env
           (generate_text_for_embedding
              (extract_from_image env image (BillUploadMessage.mime_type msg)))) = Ok info
    ∧ commit_terminal env = None
    ∧ rows' = <[id := step5 info
                      (extract_from_image env image (BillUploadMessage.mime_type msg))
                      (generate_embedding env
                         (generate_text_for_embedding
                            (extract_from_image env image (BillUploadMessage.mime_type msg))))
                      (utcnow env) (Bill.set_status "processing" b)]> rows.
Proof.
  intros Hid HT Hget. unfold process_bill_message. rewrite Hid, HT.
  destruct (execute_get_bill env); [intros [=]|]. rewrite Hget.
  destruct (try_except _ _ _) as [s r] eqn:Hrun. intros [= <- ->].
  destruct (attempt_returned _ _ _ _ _ _ _ Hrun) as (image & info & ? & ? & ? & ? & ->).
  exists image, info. by repeat split.
Qed.

(** A positive answer of [_check_duplicate] names a ranked row whose
    similarity reaches the threshold. *)
Lemma check_duplicate_hit env rows T v info :
  _check_duplicate env rows T v = Ok info →
  is_duplicate info = true →
  ∃ id distance,
    (id, distance) ∈ select_rows rows T v
    ∧ info = {| is_duplicate := true; duplicate_id := Some id;
                similarity := PrimFloat.sub F.one distance |}
    ∧ F.ge (PrimFloat.sub F.one distance) F.threshold = true.
Proof.
  unfold _check_duplicate. destruct (execute_search env); [discriminate|].
  pose proof (query_first_spec env rows T v) as Hin.
  destruct (query_first _ _ _ _) as [[id distance]|]; [|by intros [= <-]].
  destruct (F.ge _ _) eqn:Hge; intros [= <-]; [|discriminate].
  intros _. by exists id, distance.
Qed.

(** X1. Whether the call returned or raised tells what it left of the row of
    its job. When it returned, the row is completed or duplicate and
    carries the time of the run. When it raised [e], the row is as it
    was, or set to processing, or failed with [str(e)] as its error
    detail. *)
Theorem result_tells_row_status env msg rows rows' r id T b :
  UUID (BillUploadMessage.bill_id msg) = Some id →
  UUID (BillUploadMessage.company_id msg) = Some T →
  _get_bill rows id T = Some b →
  process_bill_message env msg rows = (rows', r) →
  match r with
  | Ok _ =>
      ∃ b', rows' = <[id := b']> rows
            ∧ (Bill.status b' = "completed" ∨ Bill.status b' = "duplicate")
            ∧ Bill.processed_at b' = Some (utcnow env)
  | Raise e =>
      rows' = rows
      ∨ rows' = <[id := Bill.set_status "processing" b]> rows
      ∨ rows' = <[id := Bill.set_error_message (Some (exn_str e))
                          (Bill.set_status "failed" b)]> rows
  end.
Proof.
  intros Hid HT Hget Hproc. destruct r as [[]|e].
  - destruct (process_returned _ _ _ _ _ _ _ Hid HT Hget Hproc)
      as (image & info & _ & _ & _ & _ & ->).
    eexists; split; [reflexivity|]. unfold step5, mark_duplicate, save_extracted,
      bind, assign, ret; simpl.
    destruct (is_duplicate info); simpl.
    + destruct b; simpl. auto.
    + destruct (truthy _); simpl; destruct b; simpl; auto.
  - revert Hproc. unfold process_bill_message. rewrite Hid, HT.
    destruct (execute_get_bill env); [intros [= <- _]; by left|]. rewrite Hget.
    apply get_bill_Some in Hget as [Hrow _].
    exec.
    destruct (commit_processing env); simpl.
    { rewrite Hrow; simpl. destruct (commit_failed env); simpl; intros [= <- <-];
        [by left|]. right; right. done. }
    destruct (download_as_bytes env _) as [image|e0]; simpl.
    2:{ destruct (commit_failed env); simpl; intros [= <- <-]; right;
        [by left|right]. by rewrite insert_insert_eq, set_status_set_status. }
    destruct (_check_duplicate _ _ _ _) as [info|e0]; simpl.
    2:{ destruct (commit_failed env); simpl; intros [= <- <-]; right;
        [by left|right]. by rewrite insert_insert_eq, set_status_set_status. }
    destruct (is_duplicate info); simpl.
    + destruct (commit_terminal env); simpl; [|intros [=]].
      rewrite lookup_insert_eq; simpl.
      destruct (commit_failed env); simpl; intros [= <- <-]; right;
        [by left|right]. by rewrite insert_insert_eq, set_status_set_status.
    + destruct (truthy _); simpl.
      * destruct (commit_terminal env); simpl; [|intros [=]].
        rewrite lookup_insert_eq; simpl.
        destruct (commit_failed env); simpl; intros [= <- <-]; right;
          [by left|right]. by rewrite insert_insert_eq, set_status_set_status.
      * destruct (commit_terminal env); simpl; [|intros [=]].
        rewrite lookup_insert_eq; simpl.
        destruct (commit_failed env); simpl; intros [= <- <-]; right;
          [by left|right]. by rewrite insert_insert_eq, set_status_set_status.
Qed.

(** X2. A row that a returned run left as a duplicate points to another row of
    the table, of the same tenant, completed, not itself marked duplicate
    and with a fingerprint; the stored similarity reaches the threshold.
    The row pointed to was not changed by the run. *)
Theorem duplicate_edge_is_well_formed env msg rows rows' id T b b' :
  UUID (BillUploadMessage.bill_id msg) = Some id →
  UUID (BillUploadMessage.company_id msg) = Some T →
  _get_bill rows id T = Some b →
  process_bill_message env msg rows = (rows', Ok tt) →
  rows' !! id = Some b' →
  Bill.status b' = "duplicate" →
  Bill.is_duplicate b' = true
  ∧ ∃ original c score,
      Bill.duplicate_of_id b' = Some original
      ∧ original ≠ id
      ∧ rows' !! original = Some c
      ∧ rows !! original = Some c
      ∧ Bill.company_id c = Bill.company_id b'
      ∧ Bill.status c = "completed"
      ∧ Bill.is_duplicate c = false
      ∧ is_Some (Bill.visual_fingerprint c)
      ∧ Bill.similarity_score b' = Some score
      ∧ F.ge score F.threshold = true.
Proof.
  intros Hid HT Hget Hproc Hrow' Hst.
  destruct (process_returned _ _ _ _ _ _ _ Hid HT Hget Hproc)
    as (image & info & _ & _ & Hinfo & _ & ->).
  rewrite lookup_insert_eq in Hrow'. injection Hrow' as <-.
  apply get_bill_Some in Hget as [Hrow Hco].
  revert Hst. unfold step5, mark_duplicate, save_extracted, bind, assign, ret; simpl.
  destruct (is_duplicate info) eqn:Hdup; simpl.
  2:{ destruct (truthy _); simpl; destruct b; simpl; discriminate. }
  intros _.
  destruct (check_duplicate_hit _ _ _ _ _ Hinfo Hdup) as (original & distance & Hin & -> & Hge).
  apply elem_of_select_rows in Hin as (c & fp & Hc & Hcco & Hcst & Hcdu & Hcfp & _).
  assert (Hne : original ≠ id).
  { intros ->. rewrite lookup_insert_eq in Hc. injection Hc as <-.
    destruct b; simpl in *. discriminate. }
  rewrite lookup_insert_ne in Hc by done.
  split; [by destruct b|].
  exists original, c, (PrimFloat.sub F.one distance). simpl.
  rewrite lookup_insert_ne by done.
  repeat split; try done; try (by destruct b); try (by rewrite Hcfp).
  rewrite Hcco, <- Hco. by destruct b.
Qed.

(** The transitions keep the columns written at upload. *)
Lemma rewritten_keeps_upload_columns b b' :
  rewritten b b' →
  Bill.company_id b' = Bill.company_id b
  ∧ Bill.original_filename b' = Bill.original_filename b
  ∧ Bill.storage_path b' = Bill.storage_path b
  ∧ Bill.file_size_bytes b' = Bill.file_size_bytes b
  ∧ Bill.mime_type b' = Bill.mime_type b.
Proof. intros []; by destruct b. Qed.

(** X3. A run neither adds nor removes rows, changes no row but the one its
    job names, and leaves in every row the columns written at upload:
    tenant, file name, storage path, size and content type. *)
Theorem run_keeps_rows_and_upload_columns env msg rows :
  dom (process_bill_message env msg rows).1 = dom rows
  ∧ (∀ id, UUID (BillUploadMessage.bill_id msg) ≠ Some id →
       (process_bill_message env msg rows).1 !! id = rows !! id)
  ∧ (∀ id b', (process_bill_message env msg rows).1 !! id = Some b' →
       ∃ b, rows !! id = Some b
            ∧ Bill.company_id b' = Bill.company_id b
            ∧ Bill.original_filename b' = Bill.original_filename b
            ∧ Bill.storage_path b' = Bill.storage_path b
            ∧ Bill.file_size_bytes b' = Bill.file_size_bytes b
            ∧ Bill.mime_type b' = Bill.mime_type b).
Proof.
  destruct (process_bill_message env msg rows) as [rows' r] eqn:Hproc. simpl.
  destruct (process_cases _ _ _ _ _ Hproc)
    as [->|(id0 & T & b0 & b0' & Hid & _ & Hrow0 & _ & -> & Hrw)].
  - split; [done|]. split; [done|]. intros id b' Hrow. by exists b'.
  - split; [|split].
    + apply dom_insert_lookup_L. by rewrite Hrow0.
    + intros id Hne. apply lookup_insert_ne. intros ->. by destruct Hne.
    + intros id b' Hrow'. destruct (decide (id0 = id)) as [Heq|Hne]; [subst id0|].
      * rewrite lookup_insert_eq in Hrow'. injection Hrow' as ->.
        exists b0. split; [done|]. by apply rewritten_keeps_upload_columns.
      * rewrite lookup_insert_ne in Hrow' by done. by exists b'.
Qed.

(** X4. The worker never clears what it once set: a row marked duplicate
    stays marked, and an error detail, a fingerprint or a processing time
    stays present, whatever the later runs do. A row once marked
    duplicate is therefore never a candidate again, even when a later
    run completes it. *)
Theorem run_never_clears env msg rows rows' r id b b' :
  process_bill_message env msg rows = (rows', r) →
  rows !! id = Some b →
  rows' !! id = Some b' →
  (Bill.is_duplicate b = true → Bill.is_duplicate b' = true)
  ∧ (is_Some (Bill.error_message b) → is_Some (Bill.error_message b'))
  ∧ (is_Some (Bill.visual_fingerprint b) → is_Some (Bill.visual_fingerprint b'))
  ∧ (is_Some (Bill.processed_at b) → is_Some (Bill.processed_at b'))
  ∧ (Bill.is_duplicate b = true → ∀ company_id, is_candidate company_id b' = false).
Proof.
  intros Hproc Hrow Hrow'.
  assert (Hflag : Bill.is_duplicate b = true → Bill.is_duplicate b' = true).
  { destruct (row_after_run _ _ _ _ _ _ _ _ Hproc Hrow Hrow') as [->|[]];
      destruct b; simpl; done. }
  split; [done|].
  repeat split.
  - destruct (row_after_run _ _ _ _ _ _ _ _ Hproc Hrow Hrow') as [->|[]];
      destruct b; simpl; eauto.
  - destruct (row_after_run _ _ _ _ _ _ _ _ Hproc Hrow Hrow') as [->|[]];
      destruct b; simpl; eauto.
  - destruct (row_after_run _ _ _ _ _ _ _ _ Hproc Hrow Hrow') as [->|[]];
      destruct b; simpl; eauto.
  - intros Hdup company_id. unfold is_candidate. rewrite (Hflag Hdup). simpl.
    by rewrite andb_false_r.
Qed.

(** X5. A row that a run leaves with status failed differs from what it was
    before the run in at most [status] and [error_message]. *)
Theorem failed_outcome_frame env msg rows rows' r id b b' :
  process_bill_message env msg rows = (rows', r) →
  rows !! id = Some b →
  rows' !! id = Some b' →
  Bill.status b' = "failed" →
  b' = Bill.set_error_message (Bill.error_message b') (Bill.set_status "failed" b).
Proof.
  intros Hproc Hrow Hrow' Hst.
  destruct (row_after_run _ _ _ _ _ _ _ _ Hproc Hrow Hrow') as [->|Hrw].
  - destruct b; simpl in *. by subst.
  - destruct Hrw; destruct b; simpl in *; try discriminate. done.
Qed.

(** X6. What the completed outcome stores is what this run extracted, and the
    fingerprint it stores is the embedding the duplicate search was made
    with, each component rounded to single precision as the vector column
    holds it. The date is parsed when the extraction has one and left as
    it was otherwise. The duplicate flag, the duplicate-of reference, the
    similarity score and the error detail are left as they were. *)
Theorem completed_outcome_columns env msg rows rows' id T b b' :
  UUID (BillUploadMessage.bill_id msg) = Some id →
  UUID (BillUploadMessage.company_id msg) = Some T →
  _get_bill rows id T = Some b →
  process_bill_message env msg rows = (rows', Ok tt) →
  rows' !! id = Some b' →
  Bill.status b' = "completed" →
  ∃ image extracted,
    download_as_bytes env (BillUploadMessage.storage_path msg) = Ok image
    ∧ extracted = extract_from_image env image (BillUploadMessage.mime_type msg)
    ∧ Bill.raw_extraction b' = Some extracted
    ∧ Bill.vendor_name b' = Some (ExtractedBillData.vendor_name extracted)
    ∧ Bill.vendor_tax_number b' = ExtractedBillData.vendor_tax_number extracted
    ∧ Bill.bill_number b' = ExtractedBillData.bill_number extracted
    ∧ Bill.bill_date b' =
        (if truthy (ExtractedBillData.bill_date extracted)
         then _parse_date (default "" (ExtractedBillData.bill_date extracted))
         else Bill.bill_date b)
    ∧ Bill.total_amount b' = Some (ExtractedBillData.total_amount extracted)
    ∧ Bill.currency b' = Some (ExtractedBillData.currency extracted)
    ∧ Bill.line_items b' = Some (ExtractedBillData.line_items extracted)
    ∧ Bill.visual_fingerprint b' =
        Some (map float4 (generate_embedding env (generate_text_for_embedding extracted)))
    ∧ Bill.is_duplicate b' = Bill.is_duplicate b
    ∧ Bill.duplicate_of_id b' = Bill.duplicate_of_id b
    ∧ Bill.similarity_score b' = Bill.similarity_score b
    ∧ Bill.error_message b' = Bill.error_message b.
Proof.
  intros Hid HT Hget Hproc Hrow' Hst.
  destruct (process_returned _ _ _ _ _ _ _ Hid HT Hget Hproc)
    as (image & info & _ & Hblob & _ & _ & ->).
  rewrite lookup_insert_eq in Hrow'. injection Hrow' as <-.
  exists image, (extract_from_image env image (BillUploadMessage.mime_type msg)).
  split; [done|]. split; [done|].
  revert Hst. unfold step5, mark_duplicate, save_extracted, bind, assign, ret; simpl.
  destruct (is_duplicate info); simpl; [destruct b; simpl; discriminate|].
  destruct (truthy _); simpl; intros _; destruct b; simpl; by repeat split.
Qed.

(** X7. An outage of the embedding service never makes a duplicate. When the
    embedding call raises, the search is made with the zero vector; when
    the distance to the zero vector is NaN, as the division by a zero
    norm gives, and no other step raises, the row is committed as
    completed with the zero vector of dimension 768 as its fingerprint. *)
Theorem embedding_outage_completes env msg rows id T b image e :
  UUID (BillUploadMessage.bill_id msg) = Some id →
  UUID (BillUploadMessage.company_id msg) = Some T →
  execute_get_bill env = None →
  _get_bill rows id T = Some b →
  commit_processing env = None →
  download_as_bytes env (BillUploadMessage.storage_path msg) = Ok image →
  embed_content env
    (generate_text_for_embedding
       (extract_from_image env image (BillUploadMessage.mime_type msg))) = Raise e →
  (∀ fingerprint, is_nan (cosine_distance fingerprint zero_vector) = true) →
  execute_search env = None →
  commit_terminal env = None →
  ∃ b', process_bill_message env msg rows = (<[id := b']> rows, Ok tt)
        ∧ Bill.status b' = "completed"
        ∧ Bill.visual_fingerprint b' = Some zero_vector
        ∧ length zero_vector = 768.
Proof.
  intros Hid HT Hrun Hget Hfirst Hblob Hembed Hnan Hsearch Hlast.
  rewrite (process_found _ _ _ _ _ _ Hid HT Hrun Hget).
  exec. rewrite Hfirst; simpl. rewrite Hblob; simpl.
  unfold generate_embedding. rewrite Hembed.
  rewrite (undefined_distance_never_matches _ _ _ _ Hnan Hsearch); simpl.
  destruct (truthy _); simpl; rewrite Hlast; simpl; rewrite insert_insert_eq;
    eexists; (split; [reflexivity|]); destruct b; simpl; by repeat split.
Qed.

End Outcomes.

(** ** The adapters and the message *)

Section Adapters.

Context {lib : Library}.

(** X8. The push adapter never rejects a delivery: whatever the body is, and
    whether the pipeline returned or raised, it answers 200, which
    acknowledges the message; it reports "success" exactly when the body
    carried a valid message and the pipeline returned. *)
Theorem pubsub_push_always_acknowledges env body rows :
  status_code (pubsub_push env body rows).2 = 200%Z
  ∧ push_delivery (pubsub_push env body rows).2 = Ack
  ∧ (status_field (pubsub_push env body rows).2 = "success"
     ↔ ∃ data bill_message,
         body = Data data
         ∧ BillUploadMessage_init data = Some bill_message
         ∧ (process_bill_message env bill_message rows).2 = Ok tt).
Proof.
  unfold pubsub_push.
  destruct body as [| | |data]; simpl;
    try (split; [done|]; split; [done|]; split; [done|]; by intros (? & ? & ? & _)).
  destruct (BillUploadMessage_init data) as [bill_message|] eqn:Hinit; simpl.
  2:{ split; [done|]. split; [done|]. split; [done|].
      intros (d & m & [= <-] & Hm & _). congruence. }
  destruct (process_bill_message env bill_message rows) as [rows' [[]|e]] eqn:Hproc; simpl.
  - split; [done|]. split; [done|]. split; [|done].
    intros _. exists data, bill_message. by rewrite Hproc.
  - split; [done|]. split; [done|]. split; [done|].
    intros (d & m & [= <-] & Hm & Hok). rewrite Hinit in Hm. injection Hm as <-.
    by rewrite Hproc in Hok.
Qed.

(** X9. For the same payload the pull adapter and the push adapter leave the
    same table. They differ in what they tell the broker: the pull
    adapter acknowledges exactly when the push adapter reports "success",
    and rejects otherwise, while the push adapter acknowledges always. *)
Theorem adapters_agree_on_the_table env data rows :
  (message_callback env (Decoded data) rows).1 = (pubsub_push env (Data data) rows).1
  ∧ ((message_callback env (Decoded data) rows).2 = Ack
     ↔ status_field (pubsub_push env (Data data) rows).2 = "success").
Proof.
  unfold message_callback, pubsub_push, parse_message.
  destruct (BillUploadMessage_init data) as [m|]; simpl; [|done].
  by destruct (process_bill_message env m rows) as [rows' [[]|e]].
Qed.

End Adapters.

(** X11. A payload lacking one of the five fields, or carrying it with a value
    that is not a string, does not decode. *)
Theorem message_needs_every_field (items : list (string * json)) (k : string) :
  k ∈ ["bill_id"; "company_id"; "storage_path"; "mime_type"; "uploaded_at"] →
  (∀ s, dict_get items k ≠ Some (JString s)) →
  BillUploadMessage_init (JObject items) = None
  ∧ parse_message (Decoded (JObject items)) = None.
Proof.
  intros Hk Hbad.
  assert (Hfield : str_field items k = None).
  { unfold str_field. destruct (dict_get items k) as [[]|] eqn:Hget; try done.
    by destruct (Hbad s). }
  assert (Hinit : BillUploadMessage_init (JObject items) = None).
  { simpl.
    destruct (str_field items "bill_id") eqn:H1; simpl; [|done].
    destruct (str_field items "company_id") eqn:H2; simpl; [|done].
    destruct (str_field items "storage_path") eqn:H3; simpl; [|done].
    destruct (str_field items "mime_type") eqn:H4; simpl; [|done].
    destruct (str_field items "uploaded_at") eqn:H5; simpl; [|done].
    repeat (apply elem_of_cons in Hk as [->|Hk]); try congruence.
    by apply not_elem_of_nil in Hk. }
  by split.
Qed.

(** ** The embedding text *)

Section Text.

Context {lib : Library}.

Lemma map_item_text l1 : ∀ l2,
  map printed_columns l1 = map printed_columns l2 → map item_text l1 = map item_text l2.
Proof.
  induction l1 as [|i l1 IH]; intros [|j l2]; cbn [map]; try done.
  intros H. injection H as Hd Hq Ht Hl.
  rewrite (IH _ Hl). unfold item_text. by rewrite Hd, Hq, Ht.
Qed.

(** X12. The text sent to the embedding service is made of the vendor name,
    the tax number, the bill number, the date, the total, the currency
    and, for each line item, its description, quantity and total price.
    Two extractions that agree on these give the same text, hence the
    same embedding request, whatever their other columns are; a missing
    and an empty tax number, bill number or date print alike. *)
Theorem embedding_text_reads_these_columns_only env (x y : ExtractedBillData.t) :
  ExtractedBillData.vendor_name x = ExtractedBillData.vendor_name y →
  or_else (ExtractedBillData.vendor_tax_number x) "N/A"
  = or_else (ExtractedBillData.vendor_tax_number y) "N/A" →
  or_else (ExtractedBillData.bill_number x) "N/A"
  = or_else (ExtractedBillData.bill_number y) "N/A" →
  or_else (ExtractedBillData.bill_date x) "N/A"
  = or_else (ExtractedBillData.bill_date y) "N/A" →
  ExtractedBillData.total_amount x = ExtractedBillData.total_amount y →
  ExtractedBillData.currency x = ExtractedBillData.currency y →
  map printed_columns (ExtractedBillData.line_items x)
  = map printed_columns (ExtractedBillData.line_items y) →
  generate_text_for_embedding x = generate_text_for_embedding y
  ∧ generate_embedding env (generate_text_for_embedding x)
    = generate_embedding env (generate_text_for_embedding y).
Proof.
  intros Hv Ht Hn Hd Hto Hc Hi.
  assert (Htext : generate_text_for_embedding x = generate_text_for_embedding y).
  { unfold generate_text_for_embedding.
    by rewrite Hv, Ht, Hn, Hd, Hto, Hc, (map_item_text _ _ Hi). }
  split; [done|]. by rewrite Htext.
Qed.

End Text.

(** ** Ties and rows that are no candidates *)

Lemma SFltb_tied x y :
  x ≠ S754_nan → y ≠ S754_nan → SFltb x y = false → SFltb y x = false →
  x = y ∨ ∃ s s', x = S754_zero s ∧ y = S754_zero s'.
Proof.
  unfold SFltb. intros Hx Hy.
  destruct x as [sx|sx| |sx mx ex], y as [sy|sy| |sy my ey];
    simpl; try congruence; eauto;
    repeat match goal with s : bool |- _ => destruct s end;
    simpl; try discriminate; auto;
    repeat match goal with
      | |- context [Pos.compare_cont Eq ?a ?b] =>
          change (Pos.compare_cont Eq a b) with (Pos.compare a b)
      end;
    rewrite (Z.compare_antisym ex ey), (Pos.compare_antisym mx my);
    destruct (Z.compare_spec ex ey); simpl; try discriminate;
    destruct (Pos.compare_spec mx my); simpl; try discriminate;
    subst; auto.
Qed.

Lemma is_nan_true x : is_nan x = true → Prim2SF x = S754_nan.
Proof.
  unfold is_nan. intros Hx. apply negb_true_iff in Hx.
  rewrite FloatAxioms.eqb_spec in Hx. by apply SFeqb_self_false.
Qed.

(** Two distances neither of which sorts before the other give the same
    similarity. *)
Lemma similarity_tied a b :
  F.pg_lt a b = false → F.pg_lt b a = false →
  PrimFloat.sub F.one a = PrimFloat.sub F.one b.
Proof.
  unfold F.pg_lt. intros Hab Hba.
  apply FloatAxioms.Prim2SF_inj. rewrite !FloatAxioms.sub_spec.
  destruct (is_nan a) eqn:Ha, (is_nan b) eqn:Hb; try discriminate.
  - by rewrite (is_nan_true _ Ha), (is_nan_true _ Hb).
  - rewrite !FloatAxioms.ltb_spec in *.
    destruct (SFltb_tied _ _ (is_nan_false _ Ha) (is_nan_false _ Hb) Hab Hba)
      as [->|(s & s' & -> & ->)]; [done|].
    by destruct s, s'.
Qed.

Section Ties.

Context {lib : Library}.

(** When the planner sorts the filtered rows itself, the verdict and the
    similarity of a search depend on the candidates only, not on the
    order in which the table is read. *)
Lemma verdict_of_candidates env rows1 rows2 T v :
  (∀ id d, candidate rows1 T v id d ↔ candidate rows2 T v id d) →
  execute_search env = None →
  index_scan env = None →
  ∃ info1 info2,
    _check_duplicate env rows1 T v = Ok info1
    ∧ _check_duplicate env rows2 T v = Ok info2
    ∧ is_duplicate info1 = is_duplicate info2
    ∧ similarity info1 = similarity info2.
Proof.
  intros Hsame Hrun Hplan. rewrite !(check_duplicate_unfold _ _ _ _ Hrun).
  unfold query_first. rewrite Hplan.
  eexists _, _. split; [reflexivity|]. split; [reflexivity|].
  pose proof (first_row_spec (select_rows rows1 T v)) as H1.
  pose proof (first_row_spec (select_rows rows2 T v)) as H2.
  destruct (first_row (select_rows rows1 T v)) as [[id1 d1]|],
           (first_row (select_rows rows2 T v)) as [[id2 d2]|].
  - destruct H1 as [Hin1 Hmin1], H2 as [Hin2 Hmin2].
    assert (Hd : PrimFloat.sub F.one d1 = PrimFloat.sub F.one d2).
    { apply similarity_tied.
      - apply (Hmin2 (id1, d1)). by apply elem_of_select_rows, Hsame, elem_of_select_rows.
      - apply (Hmin1 (id2, d2)). by apply elem_of_select_rows, Hsame, elem_of_select_rows. }
    rewrite Hd. by destruct (F.ge _ _).
  - destruct H1 as [Hin1 _]. apply elem_of_select_rows, Hsame, elem_of_select_rows in Hin1.
    rewrite H2 in Hin1. by apply not_elem_of_nil in Hin1.
  - destruct H2 as [Hin2 _]. apply elem_of_select_rows, Hsame, elem_of_select_rows in Hin2.
    rewrite H1 in Hin2. by apply not_elem_of_nil in Hin2.
  - done.
Qed.

(** X13. When the planner sorts the filtered rows itself, rows that are no
    candidates have no influence on a search: writing a row of another
    tenant, or one that is not completed, is marked duplicate or has no
    fingerprint, in the place of no row or of a row that was no candidate
    either, changes neither the verdict nor the similarity. (Under a scan
    of the index such rows do count: they take places among the rows the
    index yields.) *)
Theorem non_candidates_do_not_count env rows id b company_id embedding :
  is_candidate company_id b = false →
  (∀ b0, rows !! id = Some b0 → is_candidate company_id b0 = false) →
  execute_search env = None →
  index_scan env = None →
  ∃ info1 info2,
    _check_duplicate env (<[id := b]> rows) company_id embedding = Ok info1
    ∧ _check_duplicate env rows company_id embedding = Ok info2
    ∧ is_duplicate info1 = is_duplicate info2
    ∧ similarity info1 = similarity info2.
Proof.
  intros Hb Hold Hrun Hplan. apply verdict_of_candidates; [|done..].
  intros id' d. unfold candidate. split.
  - intros (c & fp & Hrow & Hco & Hst & Hdu & Hfp & Hd).
    destruct (decide (id = id')) as [<-|Hne].
    + rewrite lookup_insert_eq in Hrow. injection Hrow as <-.
      assert (is_candidate company_id b = true) as Hyes; [|congruence].
      apply is_candidate_true. rewrite Hfp. eauto.
    + rewrite lookup_insert_ne in Hrow by done. exists c, fp. by repeat split.
  - intros (c & fp & Hrow & Hco & Hst & Hdu & Hfp & Hd).
    destruct (decide (id = id')) as [<-|Hne].
    + assert (is_candidate company_id c = true) as Hyes.
      { apply is_candidate_true. rewrite Hfp. eauto. }
      rewrite (Hold c Hrow) in Hyes. done.
    + exists c, fp. rewrite lookup_insert_ne by done. by repeat split.
Qed.

End Ties.

(** ** [app/main.py]: uploads *)

Lemma contains_dot_last_segment s : contains_dot (last_segment s) = false.
Proof.
  induction s as [|c s IH]; simpl; [done|].
  destruct (contains_dot s) eqn:Hs; [done|].
  destruct (Ascii.eqb c ".") eqn:Hc; [done|]. simpl. by rewrite Hc, Hs.
Qed.

Lemma contains_dot_app s t : contains_dot (s +:+ t) = contains_dot s || contains_dot t.
Proof.
  induction s as [|c s IH]; simpl; [done|]. by rewrite IH, orb_assoc.
Qed.

Lemma last_segment_app s ext :
  contains_dot ext = false → last_segment (s +:+ "." +:+ ext) = ext.
Proof.
  intros Hext. induction s as [|c s IH]; simpl.
  - change ("" +:+ ext) with ext. by rewrite Hext.
  - rewrite contains_dot_app. simpl. by rewrite orb_true_r.
Qed.

(** X14. The extension [upload_bill] puts into the storage path never
    contains a dot, whatever the file is called: what follows the last
    dot of the name, or jpg when the name has no dot. *)
Theorem file_extension_has_no_dot (filename : string) :
  contains_dot (file_extension filename) = false
  ∧ (contains_dot filename = false → file_extension filename = "jpg").
Proof.
  unfold file_extension. split.
  - destruct (contains_dot filename); [apply contains_dot_last_segment|done].
  - by intros ->.
Qed.

(** X15. For a name of the form stem.ext, where ext has no dot, the extension
    is ext; the stem may contain dots and ext may be empty. *)
Theorem file_extension_of_dotted_name (stem ext : string) :
  contains_dot ext = false → file_extension (stem +:+ "." +:+ ext) = ext.
Proof.
  intros Hext. unfold file_extension.
  rewrite contains_dot_app. simpl. rewrite orb_true_r.
  by apply last_segment_app.
Qed.

Section Upload.

Context {lib : Library}.
Variable uuid_str : uuid → string.

Lemma get_current_company_cases x table :
  (get_current_company x table = HTTPException 400 ∧ UUID x = None)
  ∨ (∃ T, get_current_company x table = HTTPException 404
          ∧ UUID x = Some T ∧ table !! T = None)
  ∨ (∃ T c, get_current_company x table = HTTPException 403
            ∧ UUID x = Some T ∧ table !! T = Some c ∧ Company.is_active c = false)
  ∨ (∃ T c, get_current_company x table = Respond (T, c)
            ∧ UUID x = Some T ∧ table !! T = Some c ∧ Company.is_active c = true).
Proof.
  unfold get_current_company. destruct (UUID x) as [T|]; [|by left].
  destruct (table !! T) as [c|] eqn:Hc; [|right; left; by exists T].
  destruct (Company.is_active c) eqn:Ha.
  - do 3 right. by exists T, c.
  - right; right; left. by exists T, c.
Qed.

(** The outcomes of [upload_bill], by the step that ends the request. *)
Lemma upload_bill_cases env file T c s :
  let path := upload_path uuid_str T (uuid4 env) (UploadFile.filename file) in
  let stored :=
    {| companies := companies s; bills := bills s;
       bucket := <[path := UploadFile.content file]> (bucket s); topic := topic s |} in
  let committed :=
    {| companies :=
         <[T := Company.set_monthly_scans_used (Company.monthly_scans_used c + 1)%Z c]>
           (companies s);
       bills := <[uuid4 env := new_bill T file path]> (bills s);
       bucket := <[path := UploadFile.content file]> (bucket s); topic := topic s |} in
  (upload_bill uuid_str env file T c s = (s, HTTPException 400)
   ∧ (type_allowed (UploadFile.content_type file) = false
      ∨ (max_size < Z.of_nat (length (UploadFile.content file)))%Z))
  ∨ (upload_bill uuid_str env file T c s = (s, HTTPException 429)
     ∧ (Company.monthly_scan_limit c ≤ Company.monthly_scans_used c)%Z)
  ∨ (type_allowed (UploadFile.content_type file) = true
     ∧ (Z.of_nat (length (UploadFile.content file)) ≤ max_size)%Z
     ∧ (Company.monthly_scans_used c < Company.monthly_scan_limit c)%Z
     ∧ ((∃ e, upload_bill uuid_str env file T c s = (s, Unhandled e)
              ∧ upload_from_string env = Some e)
        ∨ (∃ e, upload_bill uuid_str env file T c s = (stored, Unhandled e)
                ∧ (is_Some (bills s !! uuid4 env) ∨ commit_upload env = Some e))
        ∨ (∃ e, upload_bill uuid_str env file T c s = (committed, Unhandled e)
                ∧ bills s !! uuid4 env = None ∧ publish env = Some e)
        ∨ (∃ r, upload_bill uuid_str env file T c s
                = ({| companies := companies committed; bills := bills committed;
                      bucket := bucket committed;
                      topic := topic s
                               ++ [BillUploadMessage_dump (upload_message uuid_str env T file)] |},
                   Respond r)
                ∧ bills s !! uuid4 env = None
                ∧ BillUploadResponse.bill_id r = uuid4 env
                ∧ BillUploadResponse.storage_path r = path))).
Proof.
  intros path stored committed. unfold upload_bill, check_scan_limit.
  destruct (type_allowed (UploadFile.content_type file)) eqn:Hty; simpl; [|left; auto].
  destruct (Z.ltb_spec max_size (Z.of_nat (length (UploadFile.content file))));
    [left; auto|].
  destruct (Z.leb_spec (Company.monthly_scan_limit c) (Company.monthly_scans_used c));
    [right; left; auto|].
  do 2 right. repeat split; [done..|].
  destruct (upload_from_string env) as [e|]; [left; eauto|]. right.
  destruct (bool_decide (is_Some (bills s !! uuid4 env))) eqn:Hpk.
  { apply bool_decide_eq_true in Hpk. left. exists integrity_error. auto. }
  apply bool_decide_eq_false in Hpk. apply eq_None_not_Some in Hpk.
  destruct (commit_upload env) as [e|]; [left; eauto|]. right.
  destruct (publish env) as [e|]; [left; eauto|]. right.
  eexists. repeat split; done.
Qed.


(** X17. A request [POST /upload] that is accepted leaves what the worker
    needs: the counter of the tenant is below its limit and goes up by
    one, no other row of [bills] changes, the new row is pending under a
    key that was free, the blob is in the bucket under the path of the
    row, and exactly one message is published; this message decodes, its
    two identifiers parse back to the key and the tenant, and the lookup
    of the worker finds the row under them. The hypotheses say that
    [uuid.UUID] reads back what [str] printed for the two identifiers. *)
Theorem accepted_upload_reaches_the_worker env x file s s' r :
  (∀ T, UUID x = Some T → UUID (uuid_str T) = Some T) →
  UUID (uuid_str (uuid4 env)) = Some (uuid4 env) →
  post_upload uuid_str env x file s = (s', Respond r) →
  ∃ T c m b,
    UUID x = Some T ∧ companies s !! T = Some c
    ∧ (Company.monthly_scans_used c < Company.monthly_scan_limit c)%Z
    ∧ companies s' !! T
      = Some (Company.set_monthly_scans_used (Company.monthly_scans_used c + 1)%Z c)
    ∧ bills s !! uuid4 env = None
    ∧ (∀ id, id ≠ uuid4 env → bills s' !! id = bills s !! id)
    ∧ BillUploadResponse.bill_id r = uuid4 env
    ∧ topic s' = app (topic s) [BillUploadMessage_dump m]
    ∧ parse_message (Decoded (BillUploadMessage_dump m)) = Some m
    ∧ UUID (BillUploadMessage.bill_id m) = Some (uuid4 env)
    ∧ UUID (BillUploadMessage.company_id m) = Some T
    ∧ _get_bill (bills s') (uuid4 env) T = Some b
    ∧ Bill.status b = "pending"
    ∧ Bill.storage_path b = BillUploadMessage.storage_path m
    ∧ BillUploadResponse.storage_path r = BillUploadMessage.storage_path m
    ∧ bucket s' !! Bill.storage_path b = Some (UploadFile.content file).
Proof.
  intros Hstr Hid. unfold post_upload.
  destruct (get_current_company_cases x (companies s))
    as [[-> Hx]|[(T & -> & Hx & Hc)|[(T & c & -> & Hx & Hc & Ha)|(T & c & -> & Hx & Hc & Ha)]]];
    try (intros [=]; fail).
  destruct (upload_bill_cases env file T c s)
    as [[-> Hbad]|[[-> Hfull]|(_ & _ & Hlt & [(e & -> & _)|[(e & -> & _)|[(e & -> & _)|(r' & -> & Hfree & Hrid & Hrpath)]]])]];
    try (intros [=]; fail).
  intros [= <- <-].
  exists T, c, (upload_message uuid_str env T file),
    (new_bill T file (upload_path uuid_str T (uuid4 env) (UploadFile.filename file))).
  simpl. repeat split; try done.
  - by rewrite lookup_insert_eq.
  - intros id Hne. by rewrite lookup_insert_ne.
  - by apply Hstr.
  - unfold _get_bill. rewrite lookup_insert_eq. simpl. by rewrite N.eqb_refl.
  - by rewrite lookup_insert_eq.
Qed.

(** X18. A request [POST /upload] that ends in an exception other than an
    HTTP error publishes nothing. Either the tables are as before (the
    blob may already be in the bucket), or it is the publication that
    raised: then the pending row is committed and the counter of the
    tenant went up, but no message announces the row. *)
Theorem failed_upload_publishes_nothing env file T c s s' e :
  upload_bill uuid_str env file T c s = (s', Unhandled e) →
  topic s' = topic s
  ∧ ((bills s' = bills s ∧ companies s' = companies s)
     ∨ (publish env = Some e
        ∧ (∃ b, bills s' !! uuid4 env = Some b ∧ Bill.status b = "pending"
                ∧ Bill.company_id b = T)
        ∧ companies s' !! T
          = Some (Company.set_monthly_scans_used (Company.monthly_scans_used c + 1)%Z c))).
Proof.
  destruct (upload_bill_cases env file T c s)
    as [[-> Hbad]|[[-> Hfull]|(_ & _ & Hlt & [(e' & -> & _)|[(e' & -> & _)|[(e' & -> & Hfree & Hpub)|(r' & -> & _)]]])]];
    try (intros [=]; fail); intros [= <- <-]; simpl; split; auto.
  right. split; [done|]. split; [|by rewrite lookup_insert_eq].
  eexists. rewrite lookup_insert_eq. by repeat split.
Qed.

(** X19. No request [POST /upload] takes a tenant over its limit: when every
    counter is at most its limit before the request, so it is after it,
    whatever the request and its outcome are. *)
Theorem upload_keeps_the_quota env x file s :
  (∀ T c, companies s !! T = Some c
          → (Company.monthly_scans_used c ≤ Company.monthly_scan_limit c)%Z) →
  ∀ T c, companies (post_upload uuid_str env x file s).1 !! T = Some c
         → (Company.monthly_scans_used c ≤ Company.monthly_scan_limit c)%Z.
Proof.
  intros Hinv T c. unfold post_upload.
  destruct (get_current_company_cases x (companies s))
    as [[-> Hx]|[(T0 & -> & Hx & Hc)|[(T0 & c0 & -> & Hx & Hc & Ha)|(T0 & c0 & -> & Hx & Hc & Ha)]]];
    simpl; try apply Hinv.
  destruct (upload_bill_cases env file T0 c0 s)
    as [[-> Hbad]|[[-> Hfull]|(_ & _ & Hlt & [(e & -> & _)|[(e & -> & _)|[(e & -> & _)|(r' & -> & _)]]])]];
    simpl; try apply Hinv.
  all: destruct (decide (T0 = T)) as [->|Hne];
    [rewrite lookup_insert_eq; intros [= <-]; destruct c0; simpl in *; lia
    |rewrite lookup_insert_ne by done; apply Hinv].
Qed.

End Upload.

(** ** [app/main.py]: listing *)




(** X21. Paging loses nothing and repeats nothing: when the queries run,
    with a page size [ps] between 1 and 100, the matching row at position
    [k] of the newest first order, counted from 0, is the row at position
    [k mod ps] of page [k / ps + 1]. (The bound on [k] holds for every
    row of a table: its offset fits a 64-bit integer.) *)
Theorem every_match_is_on_its_page rows T ps f k r :
  (1 ≤ ps ≤ 100)%Z →
  (Z.of_nat k ≤ int64_max)%Z →
  List.filter (listed T f) rows !! k = Some r →
  ∃ resp,
    list_bills None rows T (Z.of_nat k / ps + 1) ps f = Respond resp
    ∧ BillListResponse.bills resp !! (k mod Z.to_nat ps)%nat = Some r.
Proof.
  intros Hps Hbound Hk. unfold list_bills, effective_page, effective_page_size.
  destruct (Z.ltb_spec ps 1); [lia|]. destruct (Z.ltb_spec 100 ps); [lia|]. simpl.
  assert (0 ≤ Z.of_nat k / ps)%Z by (apply Z.div_pos; lia).
  destruct (Z.ltb_spec (Z.of_nat k / ps + 1) 1); [lia|].
  replace (Z.of_nat k / ps + 1 - 1)%Z with (Z.of_nat k / ps)%Z by lia.
  assert (Hle : (Z.of_nat k / ps * ps ≤ Z.of_nat k)%Z).
  { rewrite Z.mul_comm. apply Z.mul_div_le. lia. }
  destruct (Z.ltb_spec int64_max (Z.of_nat k / ps * ps)); [lia|].
  eexists. split; [reflexivity|]. simpl.
  assert (Hmod : (k mod Z.to_nat ps < Z.to_nat ps)%nat) by (apply Nat.mod_upper_bound; lia).
  rewrite lookup_take_lt by done. rewrite lookup_drop.
  replace (Z.to_nat (Z.of_nat k / ps * ps) + k mod Z.to_nat ps)%nat with k; [done|].
  pose proof (Nat.div_mod_eq k (Z.to_nat ps)) as Hdm.
  assert (Z.to_nat (Z.of_nat k / ps * ps) = (Z.to_nat ps * (k / Z.to_nat ps))%nat) as ->; [|lia].
  rewrite <- (Z2Nat.id ps) at 1 2 by lia.
  rewrite <- Nat2Z.inj_div, <- Nat2Z.inj_mul, Nat2Z.id. lia.
Qed.


(** ** The further properties on the sample data *)

Import Sample.

(** X1: Bill 1 of scenario A: the run returned and left the row completed at
    time 100. *)
Lemma result_tells_row_status_witness :
  ∃ b', first_processed = <[1%N := b']> uploads
        ∧ (Bill.status b' = "completed" ∨ Bill.status b' = "duplicate")
        ∧ Bill.processed_at b' = Some 100%Z.
Proof.
  apply (result_tells_row_status (lib := lib64) (healthy "Market-001" e1 100%Z)
           (job "1" "a1") uploads first_processed (Ok tt) 1%N tenant_x (row 1 uploads));
    vm_compute; reflexivity.
Defined.

(** X2: The copy of scenario A points to bill 1, a completed row of the same
    tenant with a fingerprint. *)
Lemma duplicate_edge_is_well_formed_witness :
  Bill.is_duplicate (row 2 copy_processed) = true
  ∧ ∃ original c score,
      Bill.duplicate_of_id (row 2 copy_processed) = Some original
      ∧ original ≠ 2%N
      ∧ copy_processed !! original = Some c
      ∧ first_processed !! original = Some c
      ∧ Bill.company_id c = Bill.company_id (row 2 copy_processed)
      ∧ Bill.status c = "completed"
      ∧ Bill.is_duplicate c = false
      ∧ is_Some (Bill.visual_fingerprint c)
      ∧ Bill.similarity_score (row 2 copy_processed) = Some score
      ∧ F.ge score F.threshold = true.
Proof.
  apply (duplicate_edge_is_well_formed (lib := lib64) (healthy "Market-001" e1 200%Z)
           (job "2" "a1") first_processed copy_processed 2%N tenant_x
           (row 2 first_processed) (row 2 copy_processed));
    vm_compute; reflexivity.
Defined.

(** X4: The copy of scenario A, once marked duplicate, is completed by a
    later run and still marked: it is no candidate. *)
Lemma run_never_clears_witness :
  Bill.status (row 2 copy_completed) = "completed"
  ∧ Bill.is_duplicate (row 2 copy_completed) = true
  ∧ is_candidate tenant_x (row 2 copy_completed) = false.
Proof.
  destruct (run_never_clears (lib := lib64) (healthy "Cafe-007" e2 400%Z) (job "2" "a1")
              copy_processed copy_completed (Ok tt) 2%N
              (row 2 copy_processed) (row 2 copy_completed))
    as (Hflag & _ & _ & _ & Hcandidate); try (vm_compute; reflexivity).
  split; [vm_compute; reflexivity|].
  split; [apply Hflag|apply Hcandidate]; vm_compute; reflexivity.
Defined.

(** X5: The blob of bill 1 is missing: the failed row is the uploaded row
    with a new status and an error detail. *)
Lemma failed_outcome_frame_witness :
  row 1 blob_lost
  = Bill.set_error_message (Bill.error_message (row 1 blob_lost))
      (Bill.set_status "failed" (row 1 uploads)).
Proof.
  apply (failed_outcome_frame (lib := lib64) (blob_missing 100%Z) (job "1" "a1")
           uploads blob_lost (Raise not_found) 1%N);
    vm_compute; reflexivity.
Defined.

(** X6: Bill 1 is completed with the receipt of ShopCo and an embedding
    whose first component is the binary64 value nearest to 0.1: the
    fingerprint holds the single-precision value nearest to it. *)
Lemma completed_outcome_columns_witness :
  Bill.raw_extraction (row 1 tenth_processed) = Some shopco
  ∧ Bill.vendor_name (row 1 tenth_processed) = Some "ShopCo"
  ∧ Bill.visual_fingerprint (row 1 tenth_processed) = Some tenth_stored
  ∧ Bill.is_duplicate (row 1 tenth_processed) = false.
Proof.
  destruct (completed_outcome_columns (lib := lib64) (healthy "Market-001" tenth 100%Z)
              (job "1" "a1") uploads tenth_processed 1%N tenant_x
              (row 1 uploads) (row 1 tenth_processed))
    as (image & extracted & Himage & -> & Hraw & Hvendor & _ & _ & _ & _ & _ & _
        & Hfingerprint & Hflag & _);
    try (vm_compute; reflexivity).
  injection Himage as <-.
  rewrite Hraw, Hvendor, Hfingerprint, Hflag.
  repeat split; vm_compute; reflexivity.
Defined.

(** X7: The embedding service is down while bill 1 is processed: the row is
    completed with the zero vector as its fingerprint. *)
Lemma embedding_outage_completes_witness :
  ∃ b', process_bill_message (lib := lib_nan) (embedding_down "Market-001" 100%Z)
          (job "1" "a1") uploads
        = (<[1%N := b']> uploads, Ok tt)
        ∧ Bill.status b' = "completed"
        ∧ Bill.visual_fingerprint b' = Some zero_vector
        ∧ length zero_vector = 768.
Proof.
  apply (embedding_outage_completes (lib := lib_nan) (embedding_down "Market-001" 100%Z)
           (job "1" "a1") uploads 1%N tenant_x (row 1 uploads) [] timeout_error);
    vm_compute; reflexivity.
Defined.

(** X11: A payload with a bill id only does not decode: it has no company
    id. *)
Lemma message_needs_every_field_witness :
  BillUploadMessage_init incomplete_json = None
  ∧ parse_message (Decoded incomplete_json) = None.
Proof.
  apply (message_needs_every_field
           [("bill_id", JString "00000000-0000-0000-0000-000000000001")] "company_id").
  - apply list_elem_of_further, list_elem_of_here.
  - intros s Hs. vm_compute in Hs. discriminate.
Defined.

(** X12: The second reading of the receipt of ShopCo gives the text and the
    embedding request of the first. *)
Lemma embedding_text_reads_these_columns_only_witness :
  generate_text_for_embedding (lib := lib64) shopco
  = generate_text_for_embedding (lib := lib64) shopco_reread
  ∧ generate_embedding calm (generate_text_for_embedding (lib := lib64) shopco)
    = generate_embedding calm (generate_text_for_embedding (lib := lib64) shopco_reread).
Proof.
  apply (embedding_text_reads_these_columns_only (lib := lib64) calm shopco shopco_reread);
    reflexivity.
Defined.

(** X13: Tenant Y completes bill 3 with the fingerprint of the receipt of
    tenant X: a search of tenant X for that receipt answers as before. *)
Lemma non_candidates_do_not_count_witness :
  ∃ info1 info2,
    _check_duplicate (lib := lib64) calm
      (<[3%N := completed tenant_y "bills/a2/3.jpg" e1]> two_tenants) tenant_x e1 = Ok info1
    ∧ _check_duplicate (lib := lib64) calm two_tenants tenant_x e1 = Ok info2
    ∧ is_duplicate info1 = is_duplicate info2
    ∧ similarity info1 = similarity info2.
Proof.
  apply (non_candidates_do_not_count (lib := lib64) calm two_tenants 3%N
           (completed tenant_y "bills/a2/3.jpg" e1) tenant_x e1);
    try (vm_compute; reflexivity).
  intros b0 Hb0. vm_compute in Hb0. injection Hb0 as <-. vm_compute. reflexivity.
Defined.

(** X15: The extension of receipt.2026.jpeg is jpeg. *)
Lemma file_extension_of_dotted_name_witness :
  file_extension ("receipt.2026" +:+ "." +:+ "jpeg") = "jpeg".
Proof. exact (file_extension_of_dotted_name "receipt.2026" "jpeg" eq_refl). Defined.


(** X17: Tenant X uploads a receipt: the message published for it parses back
    to bill 4 of tenant X, and the lookup of the worker finds the
    pending row. *)
Lemma accepted_upload_reaches_the_worker_witness :
  ∃ T c m b,
    UUID (Library := lib64) (header "a1") = Some T ∧ companies office !! T = Some c
    ∧ (Company.monthly_scans_used c < Company.monthly_scan_limit c)%Z
    ∧ companies accepted !! T
      = Some (Company.set_monthly_scans_used (Company.monthly_scans_used c + 1)%Z c)
    ∧ bills office !! uuid4 smooth = None
    ∧ (∀ id, id ≠ uuid4 smooth → bills accepted !! id = bills office !! id)
    ∧ BillUploadResponse.bill_id answer = uuid4 smooth
    ∧ topic accepted = app (topic office) [BillUploadMessage_dump m]
    ∧ parse_message (Decoded (BillUploadMessage_dump m)) = Some m
    ∧ UUID (Library := lib64) (BillUploadMessage.bill_id m) = Some (uuid4 smooth)
    ∧ UUID (Library := lib64) (BillUploadMessage.company_id m) = Some T
    ∧ _get_bill (bills accepted) (uuid4 smooth) T = Some b
    ∧ Bill.status b = "pending"
    ∧ Bill.storage_path b = BillUploadMessage.storage_path m
    ∧ BillUploadResponse.storage_path answer = BillUploadMessage.storage_path m
    ∧ bucket accepted !! Bill.storage_path b = Some (UploadFile.content receipt).
Proof.
  apply (accepted_upload_reaches_the_worker (lib := lib64) uuid_str smooth (header "a1")
           receipt office accepted answer).
  - intros T HT. vm_compute in HT. injection HT as <-. vm_compute. reflexivity.
  - vm_compute. reflexivity.
  - vm_compute. reflexivity.
Defined.

(** X18: The publication times out: bill 4 is committed as pending and
    counted, and the topic is as before. *)
Lemma failed_upload_publishes_nothing_witness :
  topic unannounced = topic office
  ∧ ((bills unannounced = bills office ∧ companies unannounced = companies office)
     ∨ (publish publisher_down = Some deadline_exceeded
        ∧ (∃ b, bills unannounced !! uuid4 publisher_down = Some b
                ∧ Bill.status b = "pending" ∧ Bill.company_id b = tenant_x)
        ∧ companies unannounced !! tenant_x
          = Some (Company.set_monthly_scans_used (Company.monthly_scans_used acme + 1)%Z acme))).
Proof.
  apply (failed_upload_publishes_nothing uuid_str publisher_down receipt tenant_x acme office
           unannounced deadline_exceeded).
  vm_compute. reflexivity.
Defined.

(** X19: After the accepted upload the counter of tenant X is 4, within its
    limit of 100. *)
Lemma upload_keeps_the_quota_witness :
  companies accepted !! tenant_x = Some (Company.set_monthly_scans_used 4%Z acme)
  ∧ (Company.monthly_scans_used (Company.set_monthly_scans_used 4%Z acme)
     ≤ Company.monthly_scan_limit (Company.set_monthly_scans_used 4%Z acme))%Z.
Proof.
  assert (Hrow : companies accepted !! tenant_x
                 = Some (Company.set_monthly_scans_used 4%Z acme))
    by (vm_compute; reflexivity).
  split; [exact Hrow|].
  apply (upload_keeps_the_quota (lib := lib64) uuid_str smooth (header "a1") receipt office)
    with (T := tenant_x); [|exact Hrow].
  intros T c. unfold office, tenants. simpl.
  rewrite !lookup_insert_Some, lookup_empty.
  intros [[_ <-]|[_ [[_ <-]|[_ [[_ <-]|[_ [=]]]]]]]; vm_compute; discriminate.
Defined.


(** X21: With two rows to a page, the fourth row of tenant X (position 3) is
    the second row of page 2. *)
Lemma every_match_is_on_its_page_witness :
  ∃ resp,
    list_bills None listing tenant_x (Z.of_nat 3 / 2 + 1) 2 None = Respond resp
    ∧ BillListResponse.bills resp !! (3 mod Z.to_nat 2)%nat
      = Some (1%N, row 1 third_processed).
Proof.
  apply (every_match_is_on_its_page listing tenant_x 2%Z None 3 (1%N, row 1 third_processed)).
  - lia.
  - vm_compute. discriminate.
  - vm_compute. reflexivity.
Defined.
